(** * BOE nt37290 AMOLED panel driver: refresh-rate and idle-mode negotiation

    A shallow embedding of the feature-state tracker of the nt37290 panel
    driver (panel-boe-nt37290.c): the TE2 option and timing update, the
    idle refresh-rate resolver, the panel-feature command batch, the
    frequency change, the early-exit trigger and the power-off reset.

    C integers are carried as [Z]; the conversions between [int] and [u32],
    the masking to a byte and the wrap-around of [s64] that the C code
    performs are written out.  The commands the driver hands to the DSI
    transport, its warnings and its backlight notification are collected in
    a trace of [panel_event]s.  A function that dereferences a pointer the
    caller may leave null returns an [option]: [None] is that dereference. *)

From Stdlib Require Import ZArith List Bool Lia.
Import ListNotations.
Open Scope Z_scope.

(** ** Machine integers *)

(** Conversion to [u32] (assignment of an [int] to a [u32] lvalue). *)
Definition u32_of_int (x : Z) : Z := x mod 2 ^ 32.

(** Conversion to [int] (initialisation of an [int] from a [u32]). *)
Definition int_of_u32 (x : Z) : Z :=
  let y := x mod 2 ^ 32 in
  if y <? 2 ^ 31 then y else y - 2 ^ 32.

(** Wrap-around of a signed 64-bit value ([ktime_t] is [s64]). *)
Definition s64_wrap (x : Z) : Z := (x + 2 ^ 63) mod 2 ^ 64 - 2 ^ 63.

(** [ktime_t]: nanoseconds of the monotonic clock. *)
Definition ktime_t := Z.

Definition ktime_sub (lhs rhs : ktime_t) : ktime_t := s64_wrap (lhs - rhs).

(** [ktime_to_us]: division by NSEC_PER_USEC, truncating as C does. *)
Definition ktime_to_us (kt : ktime_t) : Z := Z.quot kt 1000.

(** ** Constants of the driver *)

Definition NT37290_TE2_MIN_RATE : Z := 30.
Definition NT37290_TE2_CHANGEABLE : Z := 0x02.
Definition NT37290_TE2_FIXED : Z := 0x22.
Definition EARLY_EXIT_THRESHOLD_US : Z := 17000.
Definition IDLE_DELAY_THRESHOLD_US : Z := 50000.
Definition EAGAIN : Z := 11.
Definition ENOMEM : Z := 12.

Definition display_off : list Z := [0x28].
Definition display_on : list Z := [0x29].
Definition cmd2_page0 : list Z := [0xF0; 0x55; 0xAA; 0x52; 0x08; 0x00].
Definition stream_2c : list Z := [0x2C].

(** ** The feature bitmap

    [DECLARE_BITMAP(feat, G10_FEAT_MAX)] is one [unsigned long]; the
    kernel's single-word bitmap helpers are bit operations on it. *)

Inductive nt37290_panel_feature : Type :=
| G10_FEAT_EARLY_EXIT
| G10_FEAT_FRAME_AUTO.

Definition G10_FEAT_MAX : Z := 2.

Definition feature_nr (f : nt37290_panel_feature) : Z :=
  match f with
  | G10_FEAT_EARLY_EXIT => 0
  | G10_FEAT_FRAME_AUTO => 1
  end.

Definition bitmap := Z.

Definition BITS_PER_LONG : Z := 64.

Definition set_bit (f : nt37290_panel_feature) (map : bitmap) : bitmap :=
  Z.lor map (Z.shiftl 1 (feature_nr f)).

Definition clear_bit (f : nt37290_panel_feature) (map : bitmap) : bitmap :=
  Z.ldiff map (Z.shiftl 1 (feature_nr f)).

Definition test_bit (f : nt37290_panel_feature) (map : bitmap) : bool :=
  Z.testbit map (feature_nr f).

(** [BITMAP_LAST_WORD_MASK(nbits)]: the low [nbits] bits of a word. *)
Definition BITMAP_LAST_WORD_MASK (nbits : Z) : Z := Z.ones nbits.

Definition bitmap_fill (nbits : Z) : bitmap := Z.ones BITS_PER_LONG.

Definition bitmap_xor (src1 src2 : bitmap) (nbits : Z) : bitmap :=
  Z.lxor src1 src2.

Definition bitmap_empty (src : bitmap) (nbits : Z) : bool :=
  Z.land src (BITMAP_LAST_WORD_MASK nbits) =? 0.

Definition bitmap_copy (src : bitmap) (nbits : Z) : bitmap := src.

(** [bitmap_clear(map, start, len)] clears the bits [start .. start+len-1]. *)
Definition bitmap_clear (map : bitmap) (start len : Z) : bitmap :=
  Z.ldiff map (Z.shiftl (Z.ones len) start).

(** ** Modes and the common panel context

    [struct exynos_panel] and [struct exynos_panel_mode] are declared in
    panel-samsung-drv.h; the records keep the fields this driver reads or
    writes.  [mode_vrefresh] is the value of [drm_mode_vrefresh(&pmode->mode)];
    [min_vrefresh] is the value the driver reads into its [int idle_vrefresh];
    [idle_delay_ms] and the idle time it is compared with are the numbers
    the comparison sees. *)

Inductive exynos_panel_idle_mode : Type :=
| IDLE_MODE_UNSUPPORTED
| IDLE_MODE_ON_INACTIVITY
| IDLE_MODE_ON_SELF_REFRESH.

Definition idle_mode_eqb (a b : exynos_panel_idle_mode) : bool :=
  match a, b with
  | IDLE_MODE_UNSUPPORTED, IDLE_MODE_UNSUPPORTED => true
  | IDLE_MODE_ON_INACTIVITY, IDLE_MODE_ON_INACTIVITY => true
  | IDLE_MODE_ON_SELF_REFRESH, IDLE_MODE_ON_SELF_REFRESH => true
  | _, _ => false
  end.

Inductive exynos_hbm_mode : Type :=
| HBM_OFF
| HBM_ON_IRC_ON
| HBM_ON_IRC_OFF.

Definition IS_HBM_ON (mode : exynos_hbm_mode) : bool :=
  match mode with
  | HBM_OFF => false
  | HBM_ON_IRC_ON | HBM_ON_IRC_OFF => true
  end.

Record exynos_panel_te2_timing : Type := mk_te2_timing {
  rising_edge : Z;
  falling_edge : Z
}.

Record exynos_panel_mode : Type := mk_panel_mode {
  mode_vrefresh : Z;
  is_lp_mode : bool;
  te2_timing : exynos_panel_te2_timing;
  idle_mode : exynos_panel_idle_mode
}.

Definition drm_mode_vrefresh (pmode : exynos_panel_mode) : Z :=
  mode_vrefresh pmode.

Record exynos_panel : Type := mk_exynos_panel {
  current_mode : option exynos_panel_mode;
  min_vrefresh : Z;
  hbm_mode : exynos_hbm_mode;
  dimming_on : bool;
  panel_idle_enabled : bool;
  idle_delay_ms : Z;
  self_refresh_active : bool;
  panel_idle_vrefresh : Z;
  last_commit_ts : ktime_t;
  last_mode_set_ts : ktime_t
}.

(** [struct nt37290_panel]: the panel's runtime state.  The [hw_] fields
    mirror what was committed to the hardware. *)
Record nt37290_panel : Type := mk_nt37290_panel {
  base : exynos_panel;
  feat : bitmap;
  hw_feat : bitmap;
  hw_vrefresh : Z;
  hw_idle_vrefresh : Z;
  auto_mode_vrefresh : Z;
  delayed_idle : bool
}.

(** Field updates ([ctx->field = v], [spanel->field = v]). *)

Definition set_panel_idle_vrefresh (v : Z) (ctx : exynos_panel) : exynos_panel :=
  mk_exynos_panel (current_mode ctx) (min_vrefresh ctx) (hbm_mode ctx)
    (dimming_on ctx) (panel_idle_enabled ctx) (idle_delay_ms ctx)
    (self_refresh_active ctx) v (last_commit_ts ctx) (last_mode_set_ts ctx).

Definition set_last_mode_set_ts (t : ktime_t) (ctx : exynos_panel) : exynos_panel :=
  mk_exynos_panel (current_mode ctx) (min_vrefresh ctx) (hbm_mode ctx)
    (dimming_on ctx) (panel_idle_enabled ctx) (idle_delay_ms ctx)
    (self_refresh_active ctx) (panel_idle_vrefresh ctx) (last_commit_ts ctx) t.

Definition set_base (b : exynos_panel) (s : nt37290_panel) : nt37290_panel :=
  mk_nt37290_panel b (feat s) (hw_feat s) (hw_vrefresh s)
    (hw_idle_vrefresh s) (auto_mode_vrefresh s) (delayed_idle s).

Definition set_feat (m : bitmap) (s : nt37290_panel) : nt37290_panel :=
  mk_nt37290_panel (base s) m (hw_feat s) (hw_vrefresh s)
    (hw_idle_vrefresh s) (auto_mode_vrefresh s) (delayed_idle s).

Definition set_hw_feat (m : bitmap) (s : nt37290_panel) : nt37290_panel :=
  mk_nt37290_panel (base s) (feat s) m (hw_vrefresh s)
    (hw_idle_vrefresh s) (auto_mode_vrefresh s) (delayed_idle s).

Definition set_hw_vrefresh (v : Z) (s : nt37290_panel) : nt37290_panel :=
  mk_nt37290_panel (base s) (feat s) (hw_feat s) v
    (hw_idle_vrefresh s) (auto_mode_vrefresh s) (delayed_idle s).

Definition set_hw_idle_vrefresh (v : Z) (s : nt37290_panel) : nt37290_panel :=
  mk_nt37290_panel (base s) (feat s) (hw_feat s) (hw_vrefresh s)
    v (auto_mode_vrefresh s) (delayed_idle s).

Definition set_auto_mode_vrefresh (v : Z) (s : nt37290_panel) : nt37290_panel :=
  mk_nt37290_panel (base s) (feat s) (hw_feat s) (hw_vrefresh s)
    (hw_idle_vrefresh s) v (delayed_idle s).

Definition set_delayed_idle (b : bool) (s : nt37290_panel) : nt37290_panel :=
  mk_nt37290_panel (base s) (feat s) (hw_feat s) (hw_vrefresh s)
    (hw_idle_vrefresh s) (auto_mode_vrefresh s) b.

(** ** What the driver emits *)

Inductive panel_warning : Type :=
| WARN_TE2_TIMING
| WARN_MANUAL_VREFRESH (vrefresh : Z)
| WARN_AUTO_IDLE_VREFRESH (idle_vrefresh : Z).

(** [DCS_BUF_ADD] queues a command in the batch, [DCS_BUF_ADD_AND_FLUSH]
    queues one and flushes the batch, [DCS_WRITE] sends one command at once
    and waits [delay_ms]. *)
Inductive panel_event : Type :=
| DCS_BUF_ADD (cmd : list Z)
| DCS_BUF_ADD_AND_FLUSH (cmd : list Z)
| DCS_WRITE (cmd : list Z) (delay_ms : Z)
| DEV_WARN (w : panel_warning)
| BACKLIGHT_STATE_CHANGED.

Definition is_dcs_event (e : panel_event) : bool :=
  match e with
  | DCS_BUF_ADD _ | DCS_BUF_ADD_AND_FLUSH _ | DCS_WRITE _ _ => true
  | DEV_WARN _ | BACKLIGHT_STATE_CHANGED => false
  end.

Definition is_dcs_write (e : panel_event) : bool :=
  match e with
  | DCS_WRITE _ _ => true
  | _ => false
  end.

Definition is_dev_warn (e : panel_event) : bool :=
  match e with
  | DEV_WARN _ => true
  | _ => false
  end.

(** The register a queued or written command addresses (its first byte). *)
Definition event_register (e : panel_event) : option Z :=
  match e with
  | DCS_BUF_ADD (r :: _) | DCS_BUF_ADD_AND_FLUSH (r :: _) | DCS_WRITE (r :: _) _ => Some r
  | _ => None
  end.

Definition writes_register (r : Z) (e : panel_event) : bool :=
  match event_register e with
  | Some r' => r' =? r
  | None => false
  end.

(** ** The driver *)

Section Driver.

(** Collaborators of panel-samsung-drv, not part of this driver.
    [exynos_panel_get_current_mode_te2] yields its return code and the
    timing it stores through its out-pointer. *)
Variable is_panel_active : exynos_panel -> bool.
Variable exynos_panel_get_current_mode_te2 :
  exynos_panel -> Z * exynos_panel_te2_timing.
Variable exynos_panel_disable : exynos_panel -> exynos_panel * Z.
Variable exynos_panel_common_init : exynos_panel -> exynos_panel * Z.

(** [nt37290_get_te2_option]; [ctx] may be a null pointer. *)
Definition nt37290_get_te2_option (ctx : option nt37290_panel) : Z :=
  match ctx with
  | None => NT37290_TE2_CHANGEABLE
  | Some spanel =>
      match current_mode (base spanel) with
      | None => NT37290_TE2_CHANGEABLE
      | Some mode =>
          if is_lp_mode mode
             || ((hw_idle_vrefresh spanel >? 0)
                 && (hw_idle_vrefresh spanel <? NT37290_TE2_MIN_RATE))
          then NT37290_TE2_FIXED
          else NT37290_TE2_CHANGEABLE
      end
  end.

(** The batch [nt37290_update_te2] sends once it has the edges. *)
Definition te2_cmds (te2_option rising falling : Z) : list panel_event :=
  [ DCS_BUF_ADD [0xF0; 0x55; 0xAA; 0x52; 0x08; 0x03];
    DCS_BUF_ADD [0xC3; te2_option];
    DCS_BUF_ADD [0x6F; 0x04];
    DCS_BUF_ADD [0xC3; te2_option];
    DCS_BUF_ADD_AND_FLUSH [0xC4; 0x00; 0x00; 0x00; 0x00; 0x00; rising; 0x10; falling] ].

(** [nt37290_update_te2]: the function returns nothing and changes no
    field, so its result is the trace alone. *)
Definition nt37290_update_te2 (ctx : option nt37290_panel) : list panel_event :=
  let te2_option := nt37290_get_te2_option ctx in
  match ctx with
  | None => []
  | Some spanel =>
      let '(ret, timing) := exynos_panel_get_current_mode_te2 (base spanel) in
      if ret =? 0 then
        te2_cmds te2_option (Z.land (rising_edge timing) 0xFF)
                        (Z.land (falling_edge timing) 0xFF)
      else if ret =? - EAGAIN then
        te2_cmds te2_option 0 0x30
      else
        [DEV_WARN WARN_TE2_TIMING]
  end.

Definition is_auto_mode_allowed (ctx : exynos_panel) : bool :=
  if IS_HBM_ON (hbm_mode ctx) || dimming_on ctx then false
  else panel_idle_enabled ctx.

(** Lines 408-420 of [nt37290_update_min_idle_vrefresh]: the tier of
    [ctx->min_vrefresh]. *)
Definition min_idle_vrefresh_tier (ctx : exynos_panel) (pmode : exynos_panel_mode) : Z :=
  let idle_vrefresh := min_vrefresh ctx in
  if (idle_vrefresh =? 0) || negb (is_auto_mode_allowed ctx)
     || idle_mode_eqb (idle_mode pmode) IDLE_MODE_UNSUPPORTED
  then 0
  else if idle_vrefresh <=? 10 then 10
  else if idle_vrefresh <=? 30 then 30
  else if idle_vrefresh <=? 60 then 60
  else 0.

(** Lines 422-426: an idle rate that is not below the target is dropped. *)
Definition min_idle_vrefresh_below_target (ctx : exynos_panel) (pmode : exynos_panel_mode) : Z :=
  let vrefresh := drm_mode_vrefresh pmode in
  let idle_vrefresh := min_idle_vrefresh_tier ctx pmode in
  if idle_vrefresh >=? vrefresh then 0 else idle_vrefresh.

(** [nt37290_update_min_idle_vrefresh]. [idle_time_delta] is the value
    [panel_get_idle_time_delta(ctx)] returns in this call. *)
Definition nt37290_update_min_idle_vrefresh (idle_time_delta : Z)
    (spanel : nt37290_panel) (pmode : exynos_panel_mode) : nt37290_panel :=
  let ctx := base spanel in
  let idle_vrefresh := min_idle_vrefresh_below_target ctx pmode in
  if negb (idle_vrefresh =? 0) && negb (idle_delay_ms ctx =? 0)
     && (idle_time_delta <? idle_delay_ms ctx)
  then set_auto_mode_vrefresh (u32_of_int 0) (set_delayed_idle true spanel)
  else set_auto_mode_vrefresh (u32_of_int idle_vrefresh) (set_delayed_idle false spanel).

(** Lines 448-451 of [nt37290_update_panel_feat]: the target rate, from
    [pmode] or else from [ctx->current_mode], which is then dereferenced. *)
Definition panel_feat_vrefresh (ctx : exynos_panel) (pmode : option exynos_panel_mode) : option Z :=
  match pmode with
  | Some m => Some (drm_mode_vrefresh m)
  | None =>
      match current_mode ctx with
      | Some m => Some (drm_mode_vrefresh m)
      | None => None
      end
  end.

(** Lines 456-464: whether the batch has to be sent. *)
Definition panel_feat_changed (spanel : nt37290_panel) (vrefresh idle_vrefresh : Z)
    (enforce : bool) : bool :=
  if enforce then
    let changed_feat := bitmap_fill G10_FEAT_MAX in
    true
  else
    let changed_feat := bitmap_xor (feat spanel) (hw_feat spanel) G10_FEAT_MAX in
    if bitmap_empty changed_feat G10_FEAT_MAX
       && (vrefresh =? hw_vrefresh spanel)
       && (idle_vrefresh =? hw_idle_vrefresh spanel)
    then false
    else true.

(** Lines 493-519: the auto frame insertion register, or a warning. *)
Definition frame_insertion_cmds (vrefresh idle_vrefresh : Z) (fi : bool) : list panel_event :=
  if negb fi then
    if vrefresh =? 60 then
      [DCS_BUF_ADD [0xBA; 0x91; 0x01; 0x01; 0x00; 0x01; 0x01; 0x01; 0x00]]
    else
      [DEV_WARN (WARN_MANUAL_VREFRESH vrefresh)]
  else
    if idle_vrefresh =? 10 then
      [DCS_BUF_ADD [0xBA; 0x93; 0x09; 0x03; 0x00; 0x11; 0x0B; 0x0B; 0x00; 0x06]]
    else if idle_vrefresh =? 30 then
      [DCS_BUF_ADD [0xBA; 0x93; 0x03; 0x02; 0x00; 0x11; 0x03; 0x03; 0x00; 0x04]]
    else if idle_vrefresh =? 60 then
      [DCS_BUF_ADD [0xBA; 0x93; 0x01; 0x01; 0x00; 0x01; 0x01; 0x01; 0x00; 0x00]]
    else
      [DEV_WARN (WARN_AUTO_IDLE_VREFRESH idle_vrefresh)].

(** Lines 477-529: the batch for a target rate, idle rate and features. *)
Definition panel_feat_cmds (vrefresh idle_vrefresh : Z) (ee fi : bool) : list panel_event :=
  if (vrefresh =? 120) && negb fi then
    [ DCS_BUF_ADD [0x2F; 0x00];
      DCS_BUF_ADD_AND_FLUSH [0x44; 0x00; 0x00] ]
  else
    [ DCS_BUF_ADD [0x2F; 0x00];
      DCS_BUF_ADD [0x2F; 0x30];
      DCS_BUF_ADD [0x5A; if ee then 0 else 1];
      DCS_BUF_ADD cmd2_page0;
      DCS_BUF_ADD [0x6F; 0x1C] ]
    ++ frame_insertion_cmds vrefresh idle_vrefresh fi
    ++ [ DCS_BUF_ADD [0x2C];
         if vrefresh =? 120
         then DCS_BUF_ADD_AND_FLUSH [0x44; 0x00; 0x00]
         else DCS_BUF_ADD_AND_FLUSH [0x44; 0x00; 0x01] ].

(** [nt37290_update_panel_feat]. [None] stands for the dereference of a
    null [ctx->current_mode]; otherwise the result is the returned flag,
    the state and the trace. *)
Definition nt37290_update_panel_feat (spanel : nt37290_panel)
    (pmode : option exynos_panel_mode) (enforce : bool)
    : option (bool * nt37290_panel * list panel_event) :=
  let idle_vrefresh := int_of_u32 (auto_mode_vrefresh spanel) in
  match panel_feat_vrefresh (base spanel) pmode with
  | None => None
  | Some vrefresh =>
      let spanel := set_base (set_panel_idle_vrefresh 0 (base spanel)) spanel in
      if negb (panel_feat_changed spanel vrefresh idle_vrefresh enforce) then
        Some (false, spanel, [])
      else
        let spanel := set_hw_vrefresh vrefresh spanel in
        let spanel := set_hw_idle_vrefresh idle_vrefresh spanel in
        let spanel := set_hw_feat (bitmap_copy (feat spanel) G10_FEAT_MAX) spanel in
        let ee := test_bit G10_FEAT_EARLY_EXIT (feat spanel) in
        let fi := test_bit G10_FEAT_FRAME_AUTO (feat spanel) in
        Some (true, spanel, panel_feat_cmds vrefresh idle_vrefresh ee fi)
  end.

(** Lines 547-550 of [nt37290_change_frequency]. *)
Definition idle_active (spanel : nt37290_panel) (pmode : exynos_panel_mode) : bool :=
  negb (auto_mode_vrefresh spanel =? 0)
  && (idle_mode_eqb (idle_mode pmode) IDLE_MODE_ON_INACTIVITY
      || (idle_mode_eqb (idle_mode pmode) IDLE_MODE_ON_SELF_REFRESH
          && self_refresh_active (base spanel))).

(** [nt37290_change_frequency]. [None] stands for the dereference of a
    null [ctx->current_mode]. *)
Definition nt37290_change_frequency (idle_time_delta : Z)
    (spanel : nt37290_panel) (pmode : exynos_panel_mode)
    : option (bool * nt37290_panel * list panel_event) :=
  match current_mode (base spanel) with
  | None => None
  | Some cur =>
      let was_lp_mode := is_lp_mode cur in
      let spanel := nt37290_update_min_idle_vrefresh idle_time_delta spanel pmode in
      let spanel :=
        if idle_active spanel pmode then
          set_feat (set_bit G10_FEAT_FRAME_AUTO
                      (set_bit G10_FEAT_EARLY_EXIT (feat spanel))) spanel
        else
          set_feat (clear_bit G10_FEAT_FRAME_AUTO
                      (clear_bit G10_FEAT_EARLY_EXIT (feat spanel))) spanel in
      match nt37290_update_panel_feat spanel (Some pmode) was_lp_mode with
      | None => None
      | Some (updated, spanel, cmds) =>
          let ctx := base spanel in
          let ctx :=
            set_panel_idle_vrefresh
              (if self_refresh_active ctx
               then u32_of_int (hw_idle_vrefresh spanel) else 0) ctx in
          Some (updated, set_base ctx spanel,
                cmds ++ (if updated then [BACKLIGHT_STATE_CHANGED] else []))
      end
  end.

(** [nt37290_set_self_refresh]; the [enable] argument is only logged. *)
Definition nt37290_set_self_refresh (idle_time_delta : Z)
    (spanel : nt37290_panel) (enable : bool)
    : option (bool * nt37290_panel * list panel_event) :=
  match current_mode (base spanel) with
  | None => Some (false, spanel, [])
  | Some pmode =>
      if is_lp_mode pmode then Some (false, spanel, [])
      else nt37290_change_frequency idle_time_delta spanel pmode
  end.

(** [nt37290_trigger_early_exit]. [now] and [now_mode_set] are the two
    readings of [ktime_get()], in the order the function takes them. *)
Definition nt37290_trigger_early_exit (now now_mode_set : ktime_t)
    (idle_time_delta : Z) (spanel : nt37290_panel)
    : option (nt37290_panel * list panel_event) :=
  let ctx := base spanel in
  let delta := ktime_sub now (last_commit_ts ctx) in
  let delta_us := ktime_to_us delta in
  if delta_us <? EARLY_EXIT_THRESHOLD_US then Some (spanel, [])
  else
    let spanel := set_base (set_last_mode_set_ts now_mode_set ctx) spanel in
    let ctx := base spanel in
    if negb (idle_delay_ms ctx =? 0) && (delta_us >? IDLE_DELAY_THRESHOLD_US) then
      match current_mode ctx with
      | None => None
      | Some pmode =>
          match nt37290_change_frequency idle_time_delta spanel pmode with
          | None => None
          | Some (_, spanel, cmds) => Some (spanel, cmds)
          end
      end
    else
      Some (spanel, [DCS_WRITE stream_2c 0]).

(** [nt37290_commit_done]. *)
Definition nt37290_commit_done (now now_mode_set : ktime_t)
    (idle_time_delta : Z) (spanel : nt37290_panel)
    : option (nt37290_panel * list panel_event) :=
  let ctx := base spanel in
  if negb (is_panel_active ctx) then Some (spanel, [])
  else
    match current_mode ctx with
    | None => Some (spanel, [])
    | Some pmode =>
        if test_bit G10_FEAT_EARLY_EXIT (feat spanel) then
          nt37290_trigger_early_exit now now_mode_set idle_time_delta spanel
        else if idle_mode_eqb (idle_mode pmode) IDLE_MODE_ON_INACTIVITY
                && delayed_idle spanel then
          match nt37290_change_frequency idle_time_delta spanel pmode with
          | None => None
          | Some (_, spanel, cmds) => Some (spanel, cmds)
          end
        else Some (spanel, [])
    end.

(** [nt37290_set_nolp_mode]. *)
Definition nt37290_set_nolp_mode (idle_time_delta : Z)
    (spanel : nt37290_panel) (pmode : exynos_panel_mode)
    : option (nt37290_panel * list panel_event) :=
  if negb (is_panel_active (base spanel)) then Some (spanel, [])
  else
    match nt37290_change_frequency idle_time_delta spanel pmode with
    | None => None
    | Some (_, spanel, cmds) =>
        Some (spanel,
              [DCS_WRITE [0x38] 34] ++ cmds
              ++ [DCS_WRITE stream_2c 34; DCS_WRITE stream_2c 0;
                  DCS_WRITE display_on 0])
    end.

(** [nt37290_mode_set]. *)
Definition nt37290_mode_set (idle_time_delta : Z)
    (spanel : nt37290_panel) (pmode : exynos_panel_mode)
    : option (nt37290_panel * list panel_event) :=
  if negb (is_panel_active (base spanel)) then Some (spanel, [])
  else
    match nt37290_change_frequency idle_time_delta spanel pmode with
    | None => None
    | Some (_, spanel, cmds) => Some (spanel, cmds)
    end.

(** [nt37290_disable]: the state and the return code of
    [exynos_panel_disable], which works on the common context only. *)
Definition nt37290_disable (spanel : nt37290_panel) : nt37290_panel * Z :=
  let spanel := set_hw_feat (bitmap_clear (hw_feat spanel) 0 G10_FEAT_MAX) spanel in
  let spanel := set_hw_vrefresh 60 spanel in
  let spanel := set_hw_idle_vrefresh 0 spanel in
  let '(ctx, ret) := exynos_panel_disable (base spanel) in
  (set_base ctx spanel, ret).

(** A [struct exynos_panel] as [devm_kzalloc] hands it out: all zero. *)
Definition exynos_panel_zeroed : exynos_panel :=
  mk_exynos_panel None 0 HBM_OFF false false 0 false 0 0 0.

(** [nt37290_panel_probe]. [kzalloc_ok] tells whether the allocation
    succeeded; the result is the panel, if one was allocated, and the
    return code. *)
Definition nt37290_panel_probe (kzalloc_ok : bool) : option nt37290_panel * Z :=
  if negb kzalloc_ok then (None, - ENOMEM)
  else
    let spanel := mk_nt37290_panel exynos_panel_zeroed 0 0 0 0 0 false in
    let spanel := set_hw_vrefresh 60 spanel in
    let spanel := set_hw_idle_vrefresh 0 spanel in
    let spanel := set_auto_mode_vrefresh 0 spanel in
    let spanel := set_delayed_idle false spanel in
    let '(ctx, ret) := exynos_panel_common_init (base spanel) in
    (Some (set_base ctx spanel), ret).

End Driver.

(** ** The mode table and sample configurations *)

(** [nt37290_modes]: 1440x3120 at 60 Hz (298620 kHz over 1580 x 3150) and
    at 120 Hz (597240 kHz), both with TE2 edges 0 and 48. *)
Definition nt37290_mode_60 : exynos_panel_mode :=
  mk_panel_mode 60 false (mk_te2_timing 0 48) IDLE_MODE_UNSUPPORTED.

Definition nt37290_mode_120 : exynos_panel_mode :=
  mk_panel_mode 120 false (mk_te2_timing 0 48) IDLE_MODE_ON_SELF_REFRESH.

Definition nt37290_modes : list exynos_panel_mode :=
  [nt37290_mode_60; nt37290_mode_120].

(** [nt37290_lp_mode]: 1440x3120 at 30 Hz, the AOD mode; the fields it
    does not name are zero. *)
Definition nt37290_lp_mode : exynos_panel_mode :=
  mk_panel_mode 30 true (mk_te2_timing 0 0) IDLE_MODE_UNSUPPORTED.

(** A 120 Hz mode that idles on inactivity, as sibling panels declare. *)
Definition sample_mode_120_inactivity : exynos_panel_mode :=
  mk_panel_mode 120 false (mk_te2_timing 0 48) IDLE_MODE_ON_INACTIVITY.

(** A common context whose current mode is [mode]: idling enabled, self
    refresh active, a minimum rate of [min] Hz and an idle delay of [delay]
    ms, last commit and last mode set at time 0. *)
Definition sample_ctx (mode : exynos_panel_mode) (min delay : Z) : exynos_panel :=
  mk_exynos_panel (Some mode) min HBM_OFF false true delay true 0 0 0.

(** The panel state right after probe, on a given common context. *)
Definition sample_panel (ctx : exynos_panel) : nt37290_panel :=
  mk_nt37290_panel ctx 0 0 60 0 0 false.

(** Collaborators for the samples: a panel that is always active, a timing
    source with a fixed return code, and power-off and initialisation
    routines that leave the common context alone. *)
Definition sample_panel_active (ctx : exynos_panel) : bool := true.

Definition sample_te2_source (ret : Z) (ctx : exynos_panel)
    : Z * exynos_panel_te2_timing :=
  (ret, mk_te2_timing 0x105 0x130).

Definition sample_panel_disable (ctx : exynos_panel) : exynos_panel * Z := (ctx, 0).

Definition sample_common_init (ctx : exynos_panel) : exynos_panel * Z := (ctx, 0).

(** ** Notions used in the statements *)

(** The idle rates the panel supports, and 0 for no idling. *)
Definition is_idle_tier (v : Z) : Prop := v = 0 \/ v = 10 \/ v = 30 \/ v = 60.

(** The feature word [nt37290_change_frequency] leaves in [feat]. *)
Definition coupled_feat (active : bool) (m : bitmap) : bitmap :=
  if active
  then set_bit G10_FEAT_FRAME_AUTO (set_bit G10_FEAT_EARLY_EXIT m)
  else clear_bit G10_FEAT_FRAME_AUTO (clear_bit G10_FEAT_EARLY_EXIT m).

(** The batch of the second branch of [panel_feat_cmds] when the frame
    insertion register has no payload: a warning stands in its place. *)
Definition unsupported_feat_cmds (vrefresh : Z) (ee : bool) (w : panel_warning)
    : list panel_event :=
  [ DCS_BUF_ADD [0x2F; 0x00];
    DCS_BUF_ADD [0x2F; 0x30];
    DCS_BUF_ADD [0x5A; if ee then 0 else 1];
    DCS_BUF_ADD cmd2_page0;
    DCS_BUF_ADD [0x6F; 0x1C];
    DEV_WARN w;
    DCS_BUF_ADD [0x2C];
    DCS_BUF_ADD_AND_FLUSH [0x44; 0x00; if vrefresh =? 120 then 0x00 else 0x01] ].

(** A panel that idles at 30 Hz in the 120 Hz mode with both features
    set and committed, with an idle delay of [delay] ms. *)
Definition sample_early_exit_panel (delay : Z) : nt37290_panel :=
  mk_nt37290_panel (sample_ctx nt37290_mode_120 30 delay) 3 3 120 30 30 false.

(** Reduce field reads of updated records. *)
Ltac fields :=
  unfold set_base, set_feat, set_hw_feat, set_hw_vrefresh, set_hw_idle_vrefresh,
    set_auto_mode_vrefresh, set_delayed_idle, set_panel_idle_vrefresh,
    set_last_mode_set_ts;
  cbn [base feat hw_feat hw_vrefresh hw_idle_vrefresh auto_mode_vrefresh delayed_idle
       current_mode min_vrefresh hbm_mode dimming_on panel_idle_enabled idle_delay_ms
       self_refresh_active panel_idle_vrefresh last_commit_ts last_mode_set_ts
       app fst snd].

Ltac fields_in H :=
  unfold set_base, set_feat, set_hw_feat, set_hw_vrefresh, set_hw_idle_vrefresh,
    set_auto_mode_vrefresh, set_delayed_idle, set_panel_idle_vrefresh,
    set_last_mode_set_ts in H;
  cbn [base feat hw_feat hw_vrefresh hw_idle_vrefresh auto_mode_vrefresh delayed_idle
       current_mode min_vrefresh hbm_mode dimming_on panel_idle_enabled idle_delay_ms
       self_refresh_active panel_idle_vrefresh last_commit_ts last_mode_set_ts
       app fst snd] in H.

(** ** Further entry points of the driver *)

(** Conversions to [u8] and [u16]. *)
Definition u8_of_int (x : Z) : Z := x mod 2 ^ 8.

Definition u16_of_int (x : Z) : Z := x mod 2 ^ 16.

Definition EINVAL : Z := 22.

(** [TO_6BIT_SIGNED(v)]: an 8-bit signed value cut to 6 bits. *)
Definition TO_6BIT_SIGNED (v : Z) : Z := Z.land v 0x3F.

(** [struct drm_display_mode]: the pixel clock in kHz and the fields that
    [nt37290_is_mode_seamless] compares. *)
Record drm_display_mode : Type := mk_display_mode {
  clock : Z;
  hdisplay : Z;
  vdisplay : Z;
  flags : Z
}.

(** [nt37290_is_mode_seamless], on [ctx->current_mode->mode] and
    [pmode->mode]. *)
Definition nt37290_is_mode_seamless (c n : drm_display_mode) : bool :=
  (vdisplay c =? vdisplay n) && (hdisplay c =? hdisplay n) && (flags c =? flags n).

(** The [mode] members of [nt37290_modes] and of [nt37290_lp_mode]. *)
Definition nt37290_display_mode_60 : drm_display_mode :=
  mk_display_mode 298620 1440 3120 0.

Definition nt37290_display_mode_120 : drm_display_mode :=
  mk_display_mode 597240 1440 3120 0.

Definition nt37290_display_mode_lp : drm_display_mode :=
  mk_display_mode 149310 1440 3120 0.

(** The fields of [struct exynos_panel] that the brightness and revision
    functions use: [ctx->panel_rev], [ctx->hbm.local_hbm.enabled] and
    [ctx->bl->props.brightness]. *)
Record exynos_panel_hbm : Type := mk_panel_hbm {
  panel_rev : Z;
  local_hbm_enabled : bool;
  bl_brightness : Z
}.

Definition set_local_hbm_enabled (b : bool) (ctx : exynos_panel_hbm) : exynos_panel_hbm :=
  mk_panel_hbm (panel_rev ctx) b (bl_brightness ctx).

(** The LHBM DBV value write for [u16 level]: page, offset and the level
    three times, high byte first. *)
Definition lhbm_dbv_cmds (level : Z) : list panel_event :=
  let val1 := u8_of_int (Z.shiftr level 8) in
  let val2 := u8_of_int (Z.land level 0xff) in
  [ DCS_BUF_ADD cmd2_page0;
    DCS_BUF_ADD [0x6F; 0x4C];
    DCS_BUF_ADD [0xDF; val1; val2; val1; val2; val1; val2] ].

Section Brightness.

(** [PANEL_REV_EVT1] and the two collaborators are declared in
    panel-samsung-drv.h. [exynos_panel_set_brightness] yields the context,
    its return code and what it sends. *)
Variable PANEL_REV_EVT1 : Z.
Variable exynos_panel_set_brightness :
  exynos_panel_hbm -> Z -> exynos_panel_hbm * Z * list panel_event.
Variable exynos_panel_get_panel_rev : exynos_panel_hbm -> Z -> exynos_panel_hbm.

(** [nt37290_set_brightness]; [br] is a [u16]. *)
Definition nt37290_set_brightness (ctx : exynos_panel_hbm) (br : Z)
    : exynos_panel_hbm * Z * list panel_event :=
  let queued :=
    if (panel_rev ctx >=? PANEL_REV_EVT1) && local_hbm_enabled ctx then
      let level := u16_of_int (br * 4) in
      lhbm_dbv_cmds level
    else [] in
  let '(ctx, ret, sent) := exynos_panel_set_brightness ctx br in
  (ctx, ret, queued ++ sent).

(** [nt37290_set_local_hbm_mode]. *)
Definition nt37290_set_local_hbm_mode (ctx : exynos_panel_hbm) (local_hbm_en : bool)
    : exynos_panel_hbm * list panel_event :=
  if Bool.eqb (local_hbm_enabled ctx) local_hbm_en then (ctx, [])
  else
    let ctx := set_local_hbm_enabled local_hbm_en ctx in
    if local_hbm_en then
      (ctx,
       (if panel_rev ctx >=? PANEL_REV_EVT1 then
          let level := u16_of_int (bl_brightness ctx * 4) in
          lhbm_dbv_cmds level
          ++ [ DCS_BUF_ADD [0x2F; 0x02];
               DCS_BUF_ADD [0x87; 0x01] ]
        else
          [ DCS_BUF_ADD [0x87; 0x21] ])
       ++ [ DCS_BUF_ADD_AND_FLUSH [0x85] ])
    else
      (ctx,
       [ DCS_BUF_ADD [0x86] ]
       ++ (if panel_rev ctx >=? PANEL_REV_EVT1 then
             [ DCS_BUF_ADD [0x87; 0x00];
               DCS_BUF_ADD_AND_FLUSH [0x2F; 0x00] ]
           else
             [ DCS_BUF_ADD_AND_FLUSH [0x87; 0x20] ])).

(** The revision code [nt37290_get_panel_rev] extracts from the panel id
    (command 0xDB is its second byte). *)
Definition panel_rev_code (id : Z) : Z :=
  let build_code := u8_of_int (Z.shiftr (Z.land id 0xFF00) 8) in
  u8_of_int (Z.lor (Z.shiftr (Z.land build_code 0xE0) 3) (Z.land build_code 0x03)).

(** [nt37290_get_panel_rev]; [id] is a [u32]. *)
Definition nt37290_get_panel_rev (ctx : exynos_panel_hbm) (id : Z) : exynos_panel_hbm :=
  exynos_panel_get_panel_rev ctx (panel_rev_code id).

End Brightness.

(** The two command sets [nt37290_enable] hands to
    [exynos_panel_send_cmd_set]; their tables are data of the driver. *)
Inductive nt37290_cmd_set : Type :=
| nt37290_init_cmd_set
| nt37290_lhbm_on_setting_cmd_set.

Section Enable.

(** Collaborators of panel-samsung-drv: each works on the common context
    and yields it with what it sends. *)
Variable exynos_panel_reset : exynos_panel -> exynos_panel * list panel_event.
Variable exynos_panel_send_cmd_set :
  exynos_panel -> nt37290_cmd_set -> exynos_panel * list panel_event.
Variable exynos_panel_set_lp_mode :
  exynos_panel -> exynos_panel_mode -> exynos_panel * list panel_event.

(** [nt37290_enable]: the state, the return code and the trace. *)
Definition nt37290_enable (spanel : nt37290_panel)
    : option (nt37290_panel * Z * list panel_event) :=
  match current_mode (base spanel) with
  | None => Some (spanel, - EINVAL, [])
  | Some pmode =>
      let '(ctx, reset) := exynos_panel_reset (base spanel) in
      let '(ctx, init) := exynos_panel_send_cmd_set ctx nt37290_init_cmd_set in
      let '(ctx, lhbm) :=
        exynos_panel_send_cmd_set ctx nt37290_lhbm_on_setting_cmd_set in
      let spanel := set_base ctx spanel in
      match nt37290_update_panel_feat spanel (Some pmode) true with
      | None => None
      | Some (_, spanel, feat_cmds) =>
          if negb (is_lp_mode pmode) then
            Some (spanel, 0,
                  reset ++ init ++ lhbm ++ feat_cmds ++ [DCS_WRITE display_on 0])
          else
            let '(ctx, lp) := exynos_panel_set_lp_mode (base spanel) pmode in
            Some (set_base ctx spanel, 0, reset ++ init ++ lhbm ++ feat_cmds ++ lp)
      end
  end.

End Enable.

(** [ctx->self_refresh_active = v], as the caller of
    [nt37290_set_self_refresh] sets it. *)
Definition set_self_refresh_active (v : bool) (s : nt37290_panel) : nt37290_panel :=
  set_base
    (mk_exynos_panel (current_mode (base s)) (min_vrefresh (base s)) (hbm_mode (base s))
       (dimming_on (base s)) (panel_idle_enabled (base s)) (idle_delay_ms (base s))
       v (panel_idle_vrefresh (base s)) (last_commit_ts (base s))
       (last_mode_set_ts (base s))) s.

(** Queued and flushing commands of a trace. *)
Definition is_flush (e : panel_event) : bool :=
  match e with
  | DCS_BUF_ADD_AND_FLUSH _ => true
  | _ => false
  end.

(** The payload of a command; empty for the other events. *)
Definition event_payload (e : panel_event) : list Z :=
  match e with
  | DCS_BUF_ADD cmd | DCS_BUF_ADD_AND_FLUSH cmd | DCS_WRITE cmd _ => cmd
  | DEV_WARN _ | BACKLIGHT_STATE_CHANGED => []
  end.

Definition is_byte (b : Z) : bool := (0 <=? b) && (b <=? 255).

Definition is_backlight_event (e : panel_event) : bool :=
  match e with
  | BACKLIGHT_STATE_CHANGED => true
  | _ => false
  end.

(** Sample collaborators for the further entry points. *)
Definition sample_set_brightness (ctx : exynos_panel_hbm) (br : Z)
    : exynos_panel_hbm * Z * list panel_event :=
  (ctx, 0, [DCS_WRITE [0x51; u8_of_int (Z.shiftr br 8); u8_of_int br] 0]).

Definition sample_get_panel_rev (ctx : exynos_panel_hbm) (rev : Z) : exynos_panel_hbm :=
  mk_panel_hbm (Z.shiftl 1 rev) (local_hbm_enabled ctx) (bl_brightness ctx).

Definition sample_panel_reset (ctx : exynos_panel) : exynos_panel * list panel_event :=
  (ctx, []).

Definition sample_send_cmd_set (ctx : exynos_panel) (set : nt37290_cmd_set)
    : exynos_panel * list panel_event :=
  (ctx, match set with
        | nt37290_init_cmd_set => [DCS_WRITE [0x11] 120]
        | nt37290_lhbm_on_setting_cmd_set => [DCS_WRITE [0x88; 0x01] 0]
        end).

Definition sample_set_lp_mode (ctx : exynos_panel) (pmode : exynos_panel_mode)
    : exynos_panel * list panel_event :=
  (ctx, [DCS_WRITE [0x39] 0]).

(** * Properties *)

(** ** Machine integers and the bitmap *)

Lemma is_idle_tier_u32 (v : Z) : is_idle_tier v -> u32_of_int v = v.
Proof.
  intros [-> | [-> | [-> | ->]]]; reflexivity.
Qed.

Lemma is_idle_tier_int (v : Z) : is_idle_tier v -> int_of_u32 v = v.
Proof.
  intros [-> | [-> | [-> | ->]]]; reflexivity.
Qed.

Lemma is_idle_tier_zero : is_idle_tier 0.
Proof. left; reflexivity. Qed.

Lemma test_bit_set_bit (f g : nt37290_panel_feature) (m : bitmap) :
  test_bit f (set_bit g m) = test_bit f m || Z.eqb (feature_nr f) (feature_nr g).
Proof.
  unfold test_bit, set_bit.
  rewrite Z.lor_spec.
  destruct f, g; simpl; now rewrite ?orb_true_r, ?orb_false_r.
Qed.

Lemma test_bit_clear_bit (f g : nt37290_panel_feature) (m : bitmap) :
  test_bit f (clear_bit g m) = test_bit f m && negb (Z.eqb (feature_nr f) (feature_nr g)).
Proof.
  unfold test_bit, clear_bit.
  rewrite Z.ldiff_spec.
  destruct f, g; simpl; now rewrite ?andb_true_r, ?andb_false_r.
Qed.

Lemma set_bit_twice (f g : nt37290_panel_feature) (m : bitmap) :
  set_bit f (set_bit g (set_bit f (set_bit g m))) = set_bit f (set_bit g m).
Proof.
  unfold set_bit. apply Z.bits_inj'. intros n _.
  rewrite !Z.lor_spec.
  destruct (Z.testbit m n),
           (Z.testbit (Z.shiftl 1 (feature_nr f)) n),
           (Z.testbit (Z.shiftl 1 (feature_nr g)) n); reflexivity.
Qed.

Lemma clear_bit_twice (f g : nt37290_panel_feature) (m : bitmap) :
  clear_bit f (clear_bit g (clear_bit f (clear_bit g m))) = clear_bit f (clear_bit g m).
Proof.
  unfold clear_bit. apply Z.bits_inj'. intros n _.
  rewrite !Z.ldiff_spec.
  destruct (Z.testbit m n),
           (Z.testbit (Z.shiftl 1 (feature_nr f)) n),
           (Z.testbit (Z.shiftl 1 (feature_nr g)) n); reflexivity.
Qed.

Lemma bitmap_xor_self_empty (m : bitmap) (nbits : Z) :
  bitmap_empty (bitmap_xor m m nbits) nbits = true.
Proof.
  unfold bitmap_empty, bitmap_xor.
  now rewrite Z.lxor_nilpotent, Z.land_0_l.
Qed.

Lemma test_bit_bitmap_clear (f : nt37290_panel_feature) (m : bitmap) :
  test_bit f (bitmap_clear m 0 G10_FEAT_MAX) = false.
Proof.
  unfold test_bit, bitmap_clear.
  rewrite Z.ldiff_spec.
  destruct f; simpl; now rewrite andb_false_r.
Qed.

(** ** The idle-rate resolver *)

Lemma min_idle_vrefresh_tier_cases (ctx : exynos_panel) (pmode : exynos_panel_mode) :
  let t := min_idle_vrefresh_tier ctx pmode in
  t = 0
  \/ (t = 10 /\ min_vrefresh ctx <= 10)
  \/ (t = 30 /\ 10 < min_vrefresh ctx <= 30)
  \/ (t = 60 /\ 30 < min_vrefresh ctx <= 60).
Proof.
  unfold min_idle_vrefresh_tier.
  destruct (_ || _ || _); [now left|].
  destruct (Z.leb_spec (min_vrefresh ctx) 10); [right; left; lia|].
  destruct (Z.leb_spec (min_vrefresh ctx) 30); [right; right; left; lia|].
  destruct (Z.leb_spec (min_vrefresh ctx) 60); [right; right; right; lia|].
  now left.
Qed.

Lemma min_idle_vrefresh_below_target_cases (ctx : exynos_panel) (pmode : exynos_panel_mode) :
  let r := min_idle_vrefresh_below_target ctx pmode in
  r = 0
  \/ (r = min_idle_vrefresh_tier ctx pmode /\ r < drm_mode_vrefresh pmode).
Proof.
  unfold min_idle_vrefresh_below_target.
  destruct (Z.geb_spec (min_idle_vrefresh_tier ctx pmode) (drm_mode_vrefresh pmode));
    [now left | right; lia].
Qed.

Lemma min_idle_vrefresh_below_target_tier (ctx : exynos_panel) (pmode : exynos_panel_mode) :
  is_idle_tier (min_idle_vrefresh_below_target ctx pmode).
Proof.
  destruct (min_idle_vrefresh_below_target_cases ctx pmode) as [H | [H _]];
    rewrite H; [apply is_idle_tier_zero|].
  unfold is_idle_tier.
  destruct (min_idle_vrefresh_tier_cases ctx pmode) as [E | [[E _] | [[E _] | [E _]]]];
    rewrite E; auto.
Qed.

(** What [nt37290_update_min_idle_vrefresh] stores, field by field. *)
Lemma update_min_idle_vrefresh_auto (d : Z) (s : nt37290_panel) (pmode : exynos_panel_mode) :
  let ctx := base s in
  let r := min_idle_vrefresh_below_target ctx pmode in
  auto_mode_vrefresh (nt37290_update_min_idle_vrefresh d s pmode)
  = if negb (r =? 0) && negb (idle_delay_ms ctx =? 0) && (d <? idle_delay_ms ctx)
    then 0 else r.
Proof.
  cbv zeta. unfold nt37290_update_min_idle_vrefresh.
  destruct (_ && _ && _); simpl; [reflexivity|].
  apply is_idle_tier_u32, min_idle_vrefresh_below_target_tier.
Qed.

Lemma update_min_idle_vrefresh_delayed (d : Z) (s : nt37290_panel) (pmode : exynos_panel_mode) :
  let ctx := base s in
  let r := min_idle_vrefresh_below_target ctx pmode in
  delayed_idle (nt37290_update_min_idle_vrefresh d s pmode)
  = negb (r =? 0) && negb (idle_delay_ms ctx =? 0) && (d <? idle_delay_ms ctx).
Proof.
  cbv zeta. unfold nt37290_update_min_idle_vrefresh.
  destruct (_ && _ && _); reflexivity.
Qed.

Lemma update_min_idle_vrefresh_frame (d : Z) (s : nt37290_panel) (pmode : exynos_panel_mode) :
  let s' := nt37290_update_min_idle_vrefresh d s pmode in
  base s' = base s /\ feat s' = feat s /\ hw_feat s' = hw_feat s
  /\ hw_vrefresh s' = hw_vrefresh s /\ hw_idle_vrefresh s' = hw_idle_vrefresh s.
Proof.
  cbv zeta. unfold nt37290_update_min_idle_vrefresh.
  destruct (_ && _ && _); simpl; auto.
Qed.

Lemma update_min_idle_vrefresh_auto_tier (d : Z) (s : nt37290_panel) (pmode : exynos_panel_mode) :
  is_idle_tier (auto_mode_vrefresh (nt37290_update_min_idle_vrefresh d s pmode)).
Proof.
  rewrite update_min_idle_vrefresh_auto.
  destruct (_ && _ && _);
    [apply is_idle_tier_zero | apply min_idle_vrefresh_below_target_tier].
Qed.

(** C1: whatever the minimum rate, the target rate, the auto-mode flags, the
    idle mode, the idle delay and the elapsed time, the idle rate that
    [nt37290_update_min_idle_vrefresh] stores is 0, 10, 30 or 60; when it is
    not 0 it is the tier of [min_vrefresh] and it is strictly below the
    target rate.  And the tiers are reached: with a minimum rate other than
    0, auto mode allowed (no HBM, no dimming, panel idle enabled), a mode
    that supports idling and no idle delay pending, a minimum rate of at
    most 10 gives 10, one above 10 and at most 30 gives 30, one above 30 and
    at most 60 gives 60, each when that tier is below the target rate, and
    a minimum rate above 60 gives 0. *)
Theorem update_min_idle_vrefresh_resolves_tier
    (d : Z) (s : nt37290_panel) (pmode : exynos_panel_mode) :
  let idle := auto_mode_vrefresh (nt37290_update_min_idle_vrefresh d s pmode) in
  let ctx := base s in
  let min := min_vrefresh ctx in
  let target := drm_mode_vrefresh pmode in
  (idle = 0 \/ idle = 10 \/ idle = 30 \/ idle = 60)
  /\ (idle = 0
      \/ (idle = 10 /\ min <= 10)
      \/ (idle = 30 /\ 10 < min <= 30)
      \/ (idle = 60 /\ 30 < min <= 60))
  /\ (idle = 0 \/ idle = min_idle_vrefresh_tier ctx pmode)
  /\ (idle = 0 \/ idle < target)
  /\ (min <> 0 ->
      IS_HBM_ON (hbm_mode ctx) = false ->
      dimming_on ctx = false ->
      panel_idle_enabled ctx = true ->
      idle_mode pmode <> IDLE_MODE_UNSUPPORTED ->
      idle_delay_ms ctx = 0 \/ idle_delay_ms ctx <= d ->
      (min <= 10 -> 10 < target -> idle = 10)
      /\ (10 < min <= 30 -> 30 < target -> idle = 30)
      /\ (30 < min <= 60 -> 60 < target -> idle = 60)
      /\ (60 < min -> idle = 0)
      /\ (min <= 10 -> target <= 10 -> idle = 0)
      /\ (10 < min <= 30 -> target <= 30 -> idle = 0)
      /\ (30 < min <= 60 -> target <= 60 -> idle = 0)).
Proof.
  cbv zeta.
  split; [apply update_min_idle_vrefresh_auto_tier|].
  rewrite update_min_idle_vrefresh_auto.
  assert (Hrange :
            forall idle,
              idle = (if negb (min_idle_vrefresh_below_target (base s) pmode =? 0)
                         && negb (idle_delay_ms (base s) =? 0)
                         && (d <? idle_delay_ms (base s))
                      then 0 else min_idle_vrefresh_below_target (base s) pmode) ->
              (idle = 0
               \/ (idle = 10 /\ min_vrefresh (base s) <= 10)
               \/ (idle = 30 /\ 10 < min_vrefresh (base s) <= 30)
               \/ (idle = 60 /\ 30 < min_vrefresh (base s) <= 60))
              /\ (idle = 0 \/ idle = min_idle_vrefresh_tier (base s) pmode)
              /\ (idle = 0 \/ idle < drm_mode_vrefresh pmode)).
  { intros idle ->.
    destruct (_ && _ && _); [repeat split; now left|].
    destruct (min_idle_vrefresh_below_target_cases (base s) pmode) as [H | [H Hlt]];
      [rewrite H; repeat split; now left|].
    split; [|split; right; assumption].
    rewrite H.
    exact (min_idle_vrefresh_tier_cases (base s) pmode). }
  destruct (Hrange _ eq_refl) as (H1 & H2 & H3).
  split; [exact H1|]. split; [exact H2|]. split; [exact H3|].
  intros Hmin Hhbm Hdim Hidle Hmode Hdelay.
  assert (Hpending : negb (idle_delay_ms (base s) =? 0) && (d <? idle_delay_ms (base s))
                     = false).
  { destruct (Z.eqb_spec (idle_delay_ms (base s)) 0); [reflexivity|].
    destruct (Z.ltb_spec d (idle_delay_ms (base s))); [lia | reflexivity]. }
  rewrite <- andb_assoc, Hpending, andb_false_r.
  unfold min_idle_vrefresh_below_target, min_idle_vrefresh_tier, is_auto_mode_allowed.
  rewrite Hhbm, Hdim, Hidle. cbn [orb negb].
  destruct (Z.eqb_spec (min_vrefresh (base s)) 0); [contradiction|].
  assert (Hsupported : idle_mode_eqb (idle_mode pmode) IDLE_MODE_UNSUPPORTED = false)
    by (destruct (idle_mode pmode); [contradiction | reflexivity | reflexivity]).
  rewrite Hsupported. cbn [orb].
  destruct (Z.leb_spec (min_vrefresh (base s)) 10);
    [|destruct (Z.leb_spec (min_vrefresh (base s)) 30);
      [|destruct (Z.leb_spec (min_vrefresh (base s)) 60)]];
    match goal with
    | |- context [?t >=? drm_mode_vrefresh pmode] =>
        destruct (Z.geb_spec t (drm_mode_vrefresh pmode))
    end;
    repeat split; intros; try reflexivity; lia.
Qed.

(** C1 in the 120 Hz mode with no idle delay: minimum rates of 7, 30 and 45
    Hz resolve to 10, 30 and 60 Hz, and one of 90 Hz to no idling. *)
Lemma update_min_idle_vrefresh_resolves_tier_witness :
  auto_mode_vrefresh
    (nt37290_update_min_idle_vrefresh 0
       (sample_panel (sample_ctx nt37290_mode_120 7 0)) nt37290_mode_120) = 10
  /\ auto_mode_vrefresh
       (nt37290_update_min_idle_vrefresh 0
          (sample_panel (sample_ctx nt37290_mode_120 30 0)) nt37290_mode_120) = 30
  /\ auto_mode_vrefresh
       (nt37290_update_min_idle_vrefresh 0
          (sample_panel (sample_ctx nt37290_mode_120 45 0)) nt37290_mode_120) = 60
  /\ auto_mode_vrefresh
       (nt37290_update_min_idle_vrefresh 0
          (sample_panel (sample_ctx nt37290_mode_120 90 0)) nt37290_mode_120) = 0.
Proof.
  split; [|split; [|split]].
  - destruct (update_min_idle_vrefresh_resolves_tier 0
                (sample_panel (sample_ctx nt37290_mode_120 7 0)) nt37290_mode_120)
      as (_ & _ & _ & _ & H).
    destruct H as (H & _);
      [discriminate | reflexivity | reflexivity | reflexivity | discriminate
      | left; reflexivity |].
    apply H; [discriminate | reflexivity].
  - destruct (update_min_idle_vrefresh_resolves_tier 0
                (sample_panel (sample_ctx nt37290_mode_120 30 0)) nt37290_mode_120)
      as (_ & _ & _ & _ & H).
    destruct H as (_ & H & _);
      [discriminate | reflexivity | reflexivity | reflexivity | discriminate
      | left; reflexivity |].
    apply H; [split; [reflexivity | discriminate] | reflexivity].
  - destruct (update_min_idle_vrefresh_resolves_tier 0
                (sample_panel (sample_ctx nt37290_mode_120 45 0)) nt37290_mode_120)
      as (_ & _ & _ & _ & H).
    destruct H as (_ & _ & H & _);
      [discriminate | reflexivity | reflexivity | reflexivity | discriminate
      | left; reflexivity |].
    apply H; [split; [reflexivity | discriminate] | reflexivity].
  - destruct (update_min_idle_vrefresh_resolves_tier 0
                (sample_panel (sample_ctx nt37290_mode_120 90 0)) nt37290_mode_120)
      as (_ & _ & _ & _ & H).
    destruct H as (_ & _ & _ & H & _);
      [discriminate | reflexivity | reflexivity | reflexivity | discriminate
      | left; reflexivity |].
    apply H. reflexivity.
Defined.

Lemma min_idle_vrefresh_below_target_nonzero (ctx : exynos_panel) (pmode : exynos_panel_mode) :
  min_idle_vrefresh_below_target ctx pmode <> 0 <->
  (min_idle_vrefresh_tier ctx pmode <> 0
   /\ min_idle_vrefresh_tier ctx pmode < drm_mode_vrefresh pmode).
Proof.
  unfold min_idle_vrefresh_below_target.
  destruct (Z.geb_spec (min_idle_vrefresh_tier ctx pmode) (drm_mode_vrefresh pmode)); lia.
Qed.

(** C4: when the idle rate that reaches the delay check (the tier of
    [min_vrefresh], kept because it is below the target) is not 0, then
    either an idle delay is configured and the elapsed time is strictly
    below it, and the function stores idle rate 0 and [delayed_idle = true];
    or not, and it stores that rate and [delayed_idle = false]. *)
Theorem update_min_idle_vrefresh_idle_delay
    (d : Z) (s : nt37290_panel) (pmode : exynos_panel_mode) :
  let ctx := base s in
  let rate := min_idle_vrefresh_below_target ctx pmode in
  let s' := nt37290_update_min_idle_vrefresh d s pmode in
  rate <> 0 ->
  ((idle_delay_ms ctx <> 0 /\ d < idle_delay_ms ctx)
   /\ auto_mode_vrefresh s' = 0 /\ delayed_idle s' = true)
  \/ (~ (idle_delay_ms ctx <> 0 /\ d < idle_delay_ms ctx)
      /\ auto_mode_vrefresh s' = rate /\ delayed_idle s' = false).
Proof.
  cbv zeta. intros Hrate.
  rewrite update_min_idle_vrefresh_auto, update_min_idle_vrefresh_delayed.
  destruct (Z.eqb_spec (min_idle_vrefresh_below_target (base s) pmode) 0) as [E | _];
    [contradiction|].
  destruct (Z.eqb_spec (idle_delay_ms (base s)) 0) as [E0 | N0]; simpl.
  - right. repeat split; try reflexivity. intros [H _]. contradiction.
  - destruct (Z.ltb_spec d (idle_delay_ms (base s))) as [Hlt | Hge].
    + left. repeat split; assumption.
    + right. repeat split; try reflexivity. intros [_ H]. lia.
Qed.

(** The instances named with C4: an idle delay of 50 ms, a minimum rate of
    30 Hz under the 120 Hz mode; 30 ms after the mode set idling is put
    off, 51 ms after it the panel idles at 30 Hz. *)
Lemma update_min_idle_vrefresh_idle_delay_witness :
  (auto_mode_vrefresh
     (nt37290_update_min_idle_vrefresh 30
        (sample_panel (sample_ctx nt37290_mode_120 30 50)) nt37290_mode_120) = 0
   /\ delayed_idle
        (nt37290_update_min_idle_vrefresh 30
           (sample_panel (sample_ctx nt37290_mode_120 30 50)) nt37290_mode_120) = true)
  /\ (auto_mode_vrefresh
        (nt37290_update_min_idle_vrefresh 51
           (sample_panel (sample_ctx nt37290_mode_120 30 50)) nt37290_mode_120) = 30
      /\ delayed_idle
           (nt37290_update_min_idle_vrefresh 51
              (sample_panel (sample_ctx nt37290_mode_120 30 50)) nt37290_mode_120) = false).
Proof.
  split.
  - destruct (update_min_idle_vrefresh_idle_delay 30
                (sample_panel (sample_ctx nt37290_mode_120 30 50)) nt37290_mode_120)
      as [[_ H] | [H _]].
    + vm_compute; discriminate.
    + exact H.
    + exfalso. apply H. vm_compute. split; [discriminate | reflexivity].
  - destruct (update_min_idle_vrefresh_idle_delay 51
                (sample_panel (sample_ctx nt37290_mode_120 30 50)) nt37290_mode_120)
      as [[[_ H] _] | [_ H]].
    + vm_compute; discriminate.
    + vm_compute in H. discriminate.
    + exact H.
Defined.

(** ** TE2 option and timing *)

Lemma get_te2_option_null : nt37290_get_te2_option None = NT37290_TE2_CHANGEABLE.
Proof. reflexivity. Qed.

Lemma get_te2_option_values (ctx : option nt37290_panel) :
  nt37290_get_te2_option ctx = NT37290_TE2_FIXED
  \/ nt37290_get_te2_option ctx = NT37290_TE2_CHANGEABLE.
Proof.
  unfold nt37290_get_te2_option.
  destruct ctx as [s|]; [|now right].
  destruct (current_mode (base s)); [|now right].
  destruct (_ || _); [now left | now right].
Qed.

(** C6: for a panel whose committed idle rate is a rate (not negative), the
    TE2 option is one of Fixed and Changeable; with no current mode it is
    Changeable; with a current mode it is Fixed exactly when that mode is a
    low-power mode or the committed idle rate is not 0 and strictly below
    30 Hz, and Changeable otherwise. *)
Theorem get_te2_option_fixed_iff (s : nt37290_panel) :
  0 <= hw_idle_vrefresh s ->
  let te2_option := nt37290_get_te2_option (Some s) in
  (current_mode (base s) = None -> te2_option = NT37290_TE2_CHANGEABLE)
  /\ (forall mode, current_mode (base s) = Some mode ->
      (te2_option = NT37290_TE2_FIXED <->
       is_lp_mode mode = true
       \/ (hw_idle_vrefresh s <> 0 /\ hw_idle_vrefresh s < NT37290_TE2_MIN_RATE))
      /\ (te2_option = NT37290_TE2_CHANGEABLE <->
          ~ (is_lp_mode mode = true
             \/ (hw_idle_vrefresh s <> 0 /\ hw_idle_vrefresh s < NT37290_TE2_MIN_RATE)))).
Proof.
  intros Hpos. cbv zeta. unfold nt37290_get_te2_option.
  split; [intros ->; reflexivity|].
  intros mode ->.
  unfold NT37290_TE2_MIN_RATE, NT37290_TE2_FIXED, NT37290_TE2_CHANGEABLE.
  destruct (is_lp_mode mode); simpl.
  - split; split; auto; try discriminate. intros H; exfalso; apply H; now left.
  - destruct (Z.gtb_spec (hw_idle_vrefresh s) 0) as [Hgt | Hle];
      destruct (Z.ltb_spec (hw_idle_vrefresh s) 30) as [Hlt | Hge]; simpl;
      split; split; try discriminate; try tauto; try lia;
      try (intros [H | H]; [discriminate | lia]);
      try (intros _ [H | H]; [discriminate | lia]).
Qed.

(** The instances named with C6, in the 120 Hz mode: a committed idle rate
    of 20 Hz gives Fixed, one of 60 Hz gives Changeable. *)
Lemma get_te2_option_fixed_iff_witness :
  nt37290_get_te2_option
    (Some (set_hw_idle_vrefresh 20 (sample_panel (sample_ctx nt37290_mode_120 0 0))))
  = NT37290_TE2_FIXED
  /\ nt37290_get_te2_option
       (Some (set_hw_idle_vrefresh 60 (sample_panel (sample_ctx nt37290_mode_120 0 0))))
     = NT37290_TE2_CHANGEABLE.
Proof.
  split.
  - destruct (get_te2_option_fixed_iff
                (set_hw_idle_vrefresh 20 (sample_panel (sample_ctx nt37290_mode_120 0 0))))
      as [_ Hmode]; [vm_compute; discriminate|].
    destruct (Hmode nt37290_mode_120 eq_refl) as [[_ Hfixed] _].
    apply Hfixed. right. split; [discriminate | reflexivity].
  - destruct (get_te2_option_fixed_iff
                (set_hw_idle_vrefresh 60 (sample_panel (sample_ctx nt37290_mode_120 0 0))))
      as [_ Hmode]; [vm_compute; discriminate|].
    destruct (Hmode nt37290_mode_120 eq_refl) as [_ [_ Hchangeable]].
    apply Hchangeable.
    intros [H | [_ H]]; [discriminate H | vm_compute in H; discriminate H].
Defined.

(** C7: when the timing source returns 0 the update sends the TE2 batch
    -- page, option, offset, option, and the timing command 0xC4 with the
    low byte of the returned rising edge in its seventh byte and that of
    the returned falling edge in its ninth; when it returns -EAGAIN the same
    batch is sent with rising 0 and falling 0x30, and no warning is raised;
    on any other return code a warning is raised and no command is queued or
    sent. *)
Theorem update_te2_timing_source
    (exynos_panel_get_current_mode_te2 : exynos_panel -> Z * exynos_panel_te2_timing)
    (s : nt37290_panel) :
  let ret := fst (exynos_panel_get_current_mode_te2 (base s)) in
  let timing := snd (exynos_panel_get_current_mode_te2 (base s)) in
  let te2_option := nt37290_get_te2_option (Some s) in
  let cmds := nt37290_update_te2 exynos_panel_get_current_mode_te2 (Some s) in
  (ret = 0 ->
   cmds = [ DCS_BUF_ADD [0xF0; 0x55; 0xAA; 0x52; 0x08; 0x03];
            DCS_BUF_ADD [0xC3; te2_option];
            DCS_BUF_ADD [0x6F; 0x04];
            DCS_BUF_ADD [0xC3; te2_option];
            DCS_BUF_ADD_AND_FLUSH
              [0xC4; 0x00; 0x00; 0x00; 0x00; 0x00;
               Z.land (rising_edge timing) 0xFF; 0x10;
               Z.land (falling_edge timing) 0xFF] ])
  /\ (ret = - EAGAIN ->
      cmds = [ DCS_BUF_ADD [0xF0; 0x55; 0xAA; 0x52; 0x08; 0x03];
               DCS_BUF_ADD [0xC3; te2_option];
               DCS_BUF_ADD [0x6F; 0x04];
               DCS_BUF_ADD [0xC3; te2_option];
               DCS_BUF_ADD_AND_FLUSH
                 [0xC4; 0x00; 0x00; 0x00; 0x00; 0x00; 0x00; 0x10; 0x30] ]
      /\ existsb is_dev_warn cmds = false)
  /\ (ret <> 0 -> ret <> - EAGAIN ->
      cmds = [DEV_WARN WARN_TE2_TIMING] /\ existsb is_dcs_event cmds = false).
Proof.
  cbv zeta. unfold nt37290_update_te2.
  destruct (exynos_panel_get_current_mode_te2 (base s)) as [ret timing]; simpl fst; simpl snd.
  split; [|split].
  - intros ->. reflexivity.
  - intros ->. split; reflexivity.
  - intros H0 H1.
    destruct (Z.eqb_spec ret 0) as [E | _]; [contradiction|].
    destruct (Z.eqb_spec ret (- EAGAIN)) as [E | _]; [contradiction|].
    split; reflexivity.
Qed.

(** C7 at three timing sources, outside low-power mode (option 0x02): one
    that succeeds with edges 0x105 and 0x130, one that is not ready, one
    that fails with -EINVAL. *)
Lemma update_te2_timing_source_witness :
  nt37290_update_te2 (sample_te2_source 0)
    (Some (sample_panel (sample_ctx nt37290_mode_120 0 0)))
  = [ DCS_BUF_ADD [0xF0; 0x55; 0xAA; 0x52; 0x08; 0x03];
      DCS_BUF_ADD [0xC3; 0x02];
      DCS_BUF_ADD [0x6F; 0x04];
      DCS_BUF_ADD [0xC3; 0x02];
      DCS_BUF_ADD_AND_FLUSH [0xC4; 0x00; 0x00; 0x00; 0x00; 0x00; 0x05; 0x10; 0x30] ]
  /\ nt37290_update_te2 (sample_te2_source (- EAGAIN))
       (Some (sample_panel (sample_ctx nt37290_mode_120 0 0)))
     = [ DCS_BUF_ADD [0xF0; 0x55; 0xAA; 0x52; 0x08; 0x03];
         DCS_BUF_ADD [0xC3; 0x02];
         DCS_BUF_ADD [0x6F; 0x04];
         DCS_BUF_ADD [0xC3; 0x02];
         DCS_BUF_ADD_AND_FLUSH [0xC4; 0x00; 0x00; 0x00; 0x00; 0x00; 0x00; 0x10; 0x30] ]
  /\ nt37290_update_te2 (sample_te2_source (-22))
       (Some (sample_panel (sample_ctx nt37290_mode_120 0 0)))
     = [DEV_WARN WARN_TE2_TIMING].
Proof.
  split; [|split].
  - destruct (update_te2_timing_source (sample_te2_source 0)
                (sample_panel (sample_ctx nt37290_mode_120 0 0))) as [H _].
    exact (H eq_refl).
  - destruct (update_te2_timing_source (sample_te2_source (- EAGAIN))
                (sample_panel (sample_ctx nt37290_mode_120 0 0))) as [_ [H _]].
    exact (proj1 (H eq_refl)).
  - destruct (update_te2_timing_source (sample_te2_source (-22))
                (sample_panel (sample_ctx nt37290_mode_120 0 0))) as [_ [_ H]].
    apply H; vm_compute; discriminate.
Defined.

(** ** The panel-feature batch and the frequency change *)

Lemma panel_feat_changed_base (b : exynos_panel) (s : nt37290_panel)
    (vrefresh idle_vrefresh : Z) (enforce : bool) :
  panel_feat_changed (set_base b s) vrefresh idle_vrefresh enforce
  = panel_feat_changed s vrefresh idle_vrefresh enforce.
Proof. reflexivity. Qed.

(** [nt37290_update_panel_feat], once the target rate is known. *)
Lemma update_panel_feat_run (s : nt37290_panel) (pmode : option exynos_panel_mode)
    (enforce : bool) (vrefresh : Z) :
  panel_feat_vrefresh (base s) pmode = Some vrefresh ->
  let idle := int_of_u32 (auto_mode_vrefresh s) in
  let ctx := set_panel_idle_vrefresh 0 (base s) in
  nt37290_update_panel_feat s pmode enforce
  = if panel_feat_changed s vrefresh idle enforce
    then Some (true,
               mk_nt37290_panel ctx (feat s) (feat s) vrefresh idle
                 (auto_mode_vrefresh s) (delayed_idle s),
               panel_feat_cmds vrefresh idle
                 (test_bit G10_FEAT_EARLY_EXIT (feat s))
                 (test_bit G10_FEAT_FRAME_AUTO (feat s)))
    else Some (false, set_base ctx s, []).
Proof.
  intros Hv. cbv zeta. unfold nt37290_update_panel_feat. rewrite Hv.
  rewrite panel_feat_changed_base.
  destruct (panel_feat_changed s vrefresh _ enforce); reflexivity.
Qed.

(** When the batch is not sent, the committed rates are the requested ones. *)
Lemma panel_feat_unchanged_inv (s : nt37290_panel) (vrefresh idle : Z) (enforce : bool) :
  panel_feat_changed s vrefresh idle enforce = false ->
  enforce = false
  /\ bitmap_empty (bitmap_xor (feat s) (hw_feat s) G10_FEAT_MAX) G10_FEAT_MAX = true
  /\ hw_vrefresh s = vrefresh /\ hw_idle_vrefresh s = idle.
Proof.
  unfold panel_feat_changed.
  destruct enforce; [discriminate|].
  destruct (bitmap_empty _ _); [|discriminate].
  destruct (Z.eqb_spec vrefresh (hw_vrefresh s)); [|discriminate].
  destruct (Z.eqb_spec idle (hw_idle_vrefresh s)); [|discriminate].
  auto.
Qed.

Lemma test_bit_coupled_feat (f : nt37290_panel_feature) (active : bool) (m : bitmap) :
  test_bit f (coupled_feat active m) = active.
Proof.
  unfold coupled_feat.
  destruct active;
    rewrite ?test_bit_set_bit, ?test_bit_clear_bit;
    destruct f, (test_bit G10_FEAT_EARLY_EXIT m), (test_bit G10_FEAT_FRAME_AUTO m);
    reflexivity.
Qed.

Lemma coupled_feat_twice (active : bool) (m : bitmap) :
  coupled_feat active (coupled_feat active m) = coupled_feat active m.
Proof.
  unfold coupled_feat.
  destruct active; [apply set_bit_twice | apply clear_bit_twice].
Qed.

(** [nt37290_change_frequency] on a panel with a current mode: the flag it
    returns, the state it leaves and the trace it emits. *)
Lemma change_frequency_run (d : Z) (s : nt37290_panel) (pmode cur : exynos_panel_mode) :
  current_mode (base s) = Some cur ->
  let s1 := nt37290_update_min_idle_vrefresh d s pmode in
  let idle := auto_mode_vrefresh s1 in
  let f := coupled_feat (idle_active s1 pmode) (feat s) in
  let v := drm_mode_vrefresh pmode in
  let changed := panel_feat_changed (set_feat f s1) v idle (is_lp_mode cur) in
  nt37290_change_frequency d s pmode
  = Some (changed,
          mk_nt37290_panel
            (set_panel_idle_vrefresh
               (if self_refresh_active (base s) then idle else 0) (base s))
            f (if changed then f else hw_feat s) v idle idle (delayed_idle s1),
          if changed
          then panel_feat_cmds v idle (test_bit G10_FEAT_EARLY_EXIT f)
                 (test_bit G10_FEAT_FRAME_AUTO f) ++ [BACKLIGHT_STATE_CHANGED]
          else []).
Proof.
  intros Hcur. cbv zeta.
  unfold nt37290_change_frequency. rewrite Hcur.
  pose proof (update_min_idle_vrefresh_auto_tier d s pmode) as Htier.
  destruct (update_min_idle_vrefresh_frame d s pmode) as (Hb & Hf & Hhf & Hhv & Hhi).
  set (s1 := nt37290_update_min_idle_vrefresh d s pmode) in *.
  replace (if idle_active s1 pmode
           then set_feat (set_bit G10_FEAT_FRAME_AUTO
                            (set_bit G10_FEAT_EARLY_EXIT (feat s1))) s1
           else set_feat (clear_bit G10_FEAT_FRAME_AUTO
                            (clear_bit G10_FEAT_EARLY_EXIT (feat s1))) s1)
    with (set_feat (coupled_feat (idle_active s1 pmode) (feat s)) s1)
    by (unfold coupled_feat; rewrite Hf; destruct (idle_active s1 pmode); reflexivity).
  set (f := coupled_feat (idle_active s1 pmode) (feat s)).
  rewrite (update_panel_feat_run (set_feat f s1) (Some pmode) (is_lp_mode cur)
             (drm_mode_vrefresh pmode) eq_refl).
  cbn [auto_mode_vrefresh set_feat feat base delayed_idle].
  rewrite (is_idle_tier_int _ Htier).
  destruct (panel_feat_changed (set_feat f s1) (drm_mode_vrefresh pmode)
              (auto_mode_vrefresh s1) (is_lp_mode cur)) eqn:Hchanged.
  - fields. rewrite (is_idle_tier_u32 _ Htier), Hb. reflexivity.
  - apply panel_feat_unchanged_inv in Hchanged.
    destruct Hchanged as (_ & _ & Hv & Hi).
    fields_in Hv. fields_in Hi. fields.
    rewrite Hi, (is_idle_tier_u32 _ Htier), Hb, Hhf, Hv. reflexivity.
Qed.

(** The resolver reads neither the committed state nor the reported idle
    rate: on two panels that agree on the fields it reads, and with the
    same outcome of the delay check, it stores the same values. *)
Lemma update_min_idle_vrefresh_same (d1 d2 v : Z) (s : nt37290_panel)
    (f hf : bitmap) (hv hi a : Z) (dl : bool) (pmode : exynos_panel_mode) :
  (d1 <? idle_delay_ms (base s)) = (d2 <? idle_delay_ms (base s)) ->
  let s' := mk_nt37290_panel (set_panel_idle_vrefresh v (base s)) f hf hv hi a dl in
  auto_mode_vrefresh (nt37290_update_min_idle_vrefresh d2 s' pmode)
  = auto_mode_vrefresh (nt37290_update_min_idle_vrefresh d1 s pmode)
  /\ delayed_idle (nt37290_update_min_idle_vrefresh d2 s' pmode)
     = delayed_idle (nt37290_update_min_idle_vrefresh d1 s pmode).
Proof.
  intros Hd. cbv zeta.
  rewrite !update_min_idle_vrefresh_auto, !update_min_idle_vrefresh_delayed.
  cbn [base].
  change (min_idle_vrefresh_below_target (set_panel_idle_vrefresh v (base s)) pmode)
    with (min_idle_vrefresh_below_target (base s) pmode).
  change (idle_delay_ms (set_panel_idle_vrefresh v (base s))) with (idle_delay_ms (base s)).
  rewrite Hd. split; reflexivity.
Qed.

(** C2: on a panel with a current mode [nt37290_change_frequency] returns,
    and in the state it leaves the EarlyExit and the FrameAuto bit of [feat]
    are equal: both are set when idling is active for the call (a resolved
    idle rate other than 0, and a mode that idles on inactivity, or on self
    refresh while self refresh is active), both are clear otherwise. *)
Theorem change_frequency_features_coupled
    (d : Z) (s : nt37290_panel) (pmode cur : exynos_panel_mode) :
  current_mode (base s) = Some cur ->
  exists updated s' cmds,
    nt37290_change_frequency d s pmode = Some (updated, s', cmds)
    /\ test_bit G10_FEAT_EARLY_EXIT (feat s') = test_bit G10_FEAT_FRAME_AUTO (feat s')
    /\ test_bit G10_FEAT_EARLY_EXIT (feat s')
       = idle_active (nt37290_update_min_idle_vrefresh d s pmode) pmode
    /\ test_bit G10_FEAT_FRAME_AUTO (feat s')
       = idle_active (nt37290_update_min_idle_vrefresh d s pmode) pmode.
Proof.
  intros Hcur.
  rewrite (change_frequency_run d s pmode cur Hcur). cbv zeta.
  do 3 eexists. split; [reflexivity|].
  cbn [feat]. rewrite !test_bit_coupled_feat. auto.
Qed.

(** C2 on the 120 Hz mode with a minimum rate of 30 Hz during self refresh:
    both bits end up set. *)
Lemma change_frequency_features_coupled_witness :
  exists updated s' cmds,
    nt37290_change_frequency 0
      (sample_panel (sample_ctx nt37290_mode_120 30 0)) nt37290_mode_120
    = Some (updated, s', cmds)
    /\ test_bit G10_FEAT_EARLY_EXIT (feat s') = true
    /\ test_bit G10_FEAT_FRAME_AUTO (feat s') = true.
Proof.
  destruct (change_frequency_features_coupled 0
              (sample_panel (sample_ctx nt37290_mode_120 30 0))
              nt37290_mode_120 nt37290_mode_120 eq_refl)
    as (updated & s' & cmds & Hrun & _ & Hee & Hfa).
  exists updated, s', cmds.
  split; [exact Hrun|].
  split; [rewrite Hee | rewrite Hfa]; reflexivity.
Defined.

(** C10: on a panel with a current mode, the state [nt37290_change_frequency]
    leaves reports in [panel_idle_vrefresh] the committed idle rate when
    self refresh is active and 0 otherwise; and the state
    [nt37290_update_panel_feat] leaves reports 0, whether it sent the batch
    or not. *)
Theorem change_frequency_panel_idle_vrefresh
    (d : Z) (s : nt37290_panel) (pmode cur : exynos_panel_mode) :
  current_mode (base s) = Some cur ->
  (exists updated s' cmds,
     nt37290_change_frequency d s pmode = Some (updated, s', cmds)
     /\ panel_idle_vrefresh (base s')
        = if self_refresh_active (base s') then hw_idle_vrefresh s' else 0)
  /\ (forall enforce, exists updated s' cmds,
        nt37290_update_panel_feat s (Some pmode) enforce = Some (updated, s', cmds)
        /\ panel_idle_vrefresh (base s') = 0).
Proof.
  intros Hcur. split.
  - rewrite (change_frequency_run d s pmode cur Hcur). cbv zeta.
    do 3 eexists. split; [reflexivity|].
    fields. reflexivity.
  - intros enforce.
    rewrite (update_panel_feat_run s (Some pmode) enforce (drm_mode_vrefresh pmode) eq_refl).
    cbv zeta.
    destruct (panel_feat_changed _ _ _ _);
      do 3 eexists; (split; [reflexivity|]); reflexivity.
Qed.

(** C10 on the 120 Hz mode with a minimum rate of 30 Hz during self
    refresh: the reported idle rate is the committed one, 30 Hz. *)
Lemma change_frequency_panel_idle_vrefresh_witness :
  exists updated s' cmds,
    nt37290_change_frequency 0
      (sample_panel (sample_ctx nt37290_mode_120 30 0)) nt37290_mode_120
    = Some (updated, s', cmds)
    /\ panel_idle_vrefresh (base s') = hw_idle_vrefresh s'
    /\ hw_idle_vrefresh s' = 30.
Proof.
  destruct (change_frequency_panel_idle_vrefresh 0
              (sample_panel (sample_ctx nt37290_mode_120 30 0))
              nt37290_mode_120 nt37290_mode_120 eq_refl)
    as [(updated & s' & cmds & Hrun & Hidle) _].
  exists updated, s', cmds.
  split; [exact Hrun|].
  vm_compute in Hrun.
  injection Hrun as _ Hs' _. subst s'.
  split; reflexivity.
Defined.

(** C3, as the code has it: on a panel whose current mode is not a
    low-power mode, a first call of [nt37290_change_frequency] followed by a
    second one for the same mode, with the same outcome of the idle-delay
    check, makes the second call return false, emit nothing and leave the
    state, its committed fields among them, as the first call left it. *)
Theorem change_frequency_twice
    (d1 d2 : Z) (s : nt37290_panel) (pmode cur : exynos_panel_mode) :
  current_mode (base s) = Some cur ->
  is_lp_mode cur = false ->
  (d1 <? idle_delay_ms (base s)) = (d2 <? idle_delay_ms (base s)) ->
  exists updated s1 cmds,
    nt37290_change_frequency d1 s pmode = Some (updated, s1, cmds)
    /\ nt37290_change_frequency d2 s1 pmode = Some (false, s1, []).
Proof.
  intros Hcur Hlp Hd.
  rewrite (change_frequency_run d1 s pmode cur Hcur). cbv zeta.
  do 3 eexists. split; [reflexivity|].
  set (s1 := nt37290_update_min_idle_vrefresh d1 s pmode).
  set (f := coupled_feat (idle_active s1 pmode) (feat s)).
  set (changed := panel_feat_changed (set_feat f s1) (drm_mode_vrefresh pmode)
                    (auto_mode_vrefresh s1) (is_lp_mode cur)).
  set (piv := if self_refresh_active (base s) then auto_mode_vrefresh s1 else 0).
  set (hf := if changed then f else hw_feat s).
  destruct (update_min_idle_vrefresh_same d1 d2 piv s f hf (drm_mode_vrefresh pmode)
              (auto_mode_vrefresh s1) (auto_mode_vrefresh s1) (delayed_idle s1) pmode Hd)
    as [Hauto Hdelayed].
  fold s1 in Hauto, Hdelayed.
  match goal with
  | |- nt37290_change_frequency d2 ?st pmode = _ => set (s2 := st) in *
  end.
  assert (Hcur2 : current_mode (base s2) = Some cur) by exact Hcur.
  rewrite (change_frequency_run d2 s2 pmode cur Hcur2). cbv zeta.
  assert (Hactive : idle_active (nt37290_update_min_idle_vrefresh d2 s2 pmode) pmode
                    = idle_active s1 pmode).
  { unfold idle_active. rewrite Hauto.
    destruct (update_min_idle_vrefresh_frame d2 s2 pmode) as [-> _].
    destruct (update_min_idle_vrefresh_frame d1 s pmode) as [Hb _].
    fold s1 in Hb. rewrite Hb. reflexivity. }
  assert (Hff : coupled_feat (idle_active s1 pmode) (feat s2) = f)
    by apply coupled_feat_twice.
  assert (Hunchanged :
            panel_feat_changed
              (set_feat f (nt37290_update_min_idle_vrefresh d2 s2 pmode))
              (drm_mode_vrefresh pmode) (auto_mode_vrefresh s1) (is_lp_mode cur) = false).
  { unfold panel_feat_changed. rewrite Hlp.
    destruct (update_min_idle_vrefresh_frame d2 s2 pmode) as (_ & _ & Hhf & Hhv & Hhi).
    fields. rewrite Hhf, Hhv, Hhi.
    change (hw_feat s2) with hf.
    change (hw_vrefresh s2) with (drm_mode_vrefresh pmode).
    change (hw_idle_vrefresh s2) with (auto_mode_vrefresh s1).
    rewrite !Z.eqb_refl, !andb_true_r.
    unfold hf. destruct changed eqn:Hchanged.
    - now rewrite bitmap_xor_self_empty.
    - unfold changed in Hchanged. apply panel_feat_unchanged_inv in Hchanged.
      destruct Hchanged as (_ & Hempty & _).
      destruct (update_min_idle_vrefresh_frame d1 s pmode) as (_ & _ & Hhf1 & _).
      fold s1 in Hhf1. fields_in Hempty. rewrite Hhf1 in Hempty.
      now rewrite Hempty. }
  rewrite Hactive, Hauto, Hdelayed, Hff, Hunchanged.
  reflexivity.
Qed.

(** C3 on the 120 Hz mode with a minimum rate of 30 Hz during self
    refresh: the first call commits, the second reports no change. *)
Lemma change_frequency_twice_witness :
  exists updated s1 cmds,
    nt37290_change_frequency 0
      (sample_panel (sample_ctx nt37290_mode_120 30 0)) nt37290_mode_120
    = Some (updated, s1, cmds)
    /\ nt37290_change_frequency 5 s1 nt37290_mode_120 = Some (false, s1, []).
Proof.
  apply (change_frequency_twice 0 5
           (sample_panel (sample_ctx nt37290_mode_120 30 0))
           nt37290_mode_120 nt37290_mode_120);
    reflexivity.
Defined.

(** Against C3 as worded: while the current mode is the low-power mode the
    flush is forced, so a second call for the same 120 Hz mode, with nothing
    changed in between, returns true again and sends the batch again. *)
Lemma change_frequency_twice_lp_counterexample :
  exists s1 cmds,
    nt37290_change_frequency 0
      (sample_panel (sample_ctx nt37290_lp_mode 30 0)) nt37290_mode_120
    = Some (true, s1, cmds)
    /\ nt37290_change_frequency 0 s1 nt37290_mode_120 = Some (true, s1, cmds)
    /\ existsb is_dcs_event cmds = true.
Proof.
  do 2 eexists. split; [vm_compute; reflexivity|].
  split; vm_compute; reflexivity.
Qed.

(** C8, as the code has it: when [nt37290_update_panel_feat] sends the
    batch (the flush is forced, or the features or rates differ from the
    committed ones) and the combination has no payload for the frame
    insertion register -- FrameAuto clear with a target rate other than 60
    and other than 120, or FrameAuto set with an idle rate other than 10, 30
    and 60 -- then the function returns true, commits the rates and the
    features, and emits the frequency mode, frequency control, early exit,
    page and offset commands, a warning in place of register 0xBA, the 0x2C
    command and the TE shift. *)
Theorem update_panel_feat_unsupported
    (s : nt37290_panel) (pmode : option exynos_panel_mode) (enforce : bool)
    (vrefresh : Z) :
  let idle := int_of_u32 (auto_mode_vrefresh s) in
  let ee := test_bit G10_FEAT_EARLY_EXIT (feat s) in
  let fi := test_bit G10_FEAT_FRAME_AUTO (feat s) in
  panel_feat_vrefresh (base s) pmode = Some vrefresh ->
  panel_feat_changed s vrefresh idle enforce = true ->
  (fi = false /\ vrefresh <> 60 /\ vrefresh <> 120)
  \/ (fi = true /\ idle <> 10 /\ idle <> 30 /\ idle <> 60) ->
  exists s' cmds,
    nt37290_update_panel_feat s pmode enforce = Some (true, s', cmds)
    /\ cmds = unsupported_feat_cmds vrefresh ee
                (if fi then WARN_AUTO_IDLE_VREFRESH idle
                 else WARN_MANUAL_VREFRESH vrefresh)
    /\ existsb (writes_register 0xBA) cmds = false
    /\ hw_vrefresh s' = vrefresh
    /\ hw_idle_vrefresh s' = idle
    /\ hw_feat s' = feat s.
Proof.
  cbv zeta. intros Hv Hchanged Hcase.
  rewrite (update_panel_feat_run s pmode enforce vrefresh Hv). cbv zeta.
  rewrite Hchanged.
  do 2 eexists. split; [reflexivity|].
  cbn [hw_vrefresh hw_idle_vrefresh hw_feat].
  assert (Hcmds :
            panel_feat_cmds vrefresh (int_of_u32 (auto_mode_vrefresh s))
              (test_bit G10_FEAT_EARLY_EXIT (feat s))
              (test_bit G10_FEAT_FRAME_AUTO (feat s))
            = unsupported_feat_cmds vrefresh (test_bit G10_FEAT_EARLY_EXIT (feat s))
                (if test_bit G10_FEAT_FRAME_AUTO (feat s)
                 then WARN_AUTO_IDLE_VREFRESH (int_of_u32 (auto_mode_vrefresh s))
                 else WARN_MANUAL_VREFRESH vrefresh)).
  { unfold panel_feat_cmds, frame_insertion_cmds, unsupported_feat_cmds.
    destruct Hcase as [(-> & H60 & H120) | (-> & H10 & H30 & H60)].
    - destruct (Z.eqb_spec vrefresh 120) as [E | _]; [contradiction|].
      destruct (Z.eqb_spec vrefresh 60) as [E | _]; [contradiction|].
      reflexivity.
    - rewrite andb_false_r.
      destruct (Z.eqb_spec (int_of_u32 (auto_mode_vrefresh s)) 10) as [E | _];
        [contradiction|].
      destruct (Z.eqb_spec (int_of_u32 (auto_mode_vrefresh s)) 30) as [E | _];
        [contradiction|].
      destruct (Z.eqb_spec (int_of_u32 (auto_mode_vrefresh s)) 60) as [E | _];
        [contradiction|].
      destruct (vrefresh =? 120); reflexivity. }
  rewrite Hcmds.
  split; [reflexivity|].
  split; [|auto].
  unfold unsupported_feat_cmds.
  destruct (test_bit G10_FEAT_EARLY_EXIT (feat s)), (vrefresh =? 120),
           (test_bit G10_FEAT_FRAME_AUTO (feat s)); reflexivity.
Qed.

(** C8 at 90 Hz with FrameAuto clear, on a forced flush. *)
Lemma update_panel_feat_unsupported_witness :
  exists s' cmds,
    nt37290_update_panel_feat
      (sample_panel (sample_ctx nt37290_mode_120 0 0))
      (Some (mk_panel_mode 90 false (mk_te2_timing 0 48) IDLE_MODE_UNSUPPORTED)) true
    = Some (true, s', cmds)
    /\ cmds = unsupported_feat_cmds 90 false (WARN_MANUAL_VREFRESH 90)
    /\ hw_vrefresh s' = 90.
Proof.
  destruct (update_panel_feat_unsupported
              (sample_panel (sample_ctx nt37290_mode_120 0 0))
              (Some (mk_panel_mode 90 false (mk_te2_timing 0 48) IDLE_MODE_UNSUPPORTED))
              true 90 eq_refl eq_refl)
    as (s' & cmds & Hrun & Hcmds & _ & Hv & _).
  - left. split; [reflexivity|]. split; discriminate.
  - exists s', cmds. auto.
Defined.

(** Against C8 as worded: FrameAuto clear with a target rate of 120 Hz is a
    rate other than 60, yet the function takes its first branch: it sends
    the two-command manual batch, raises no warning, and emits neither the
    early exit register nor the 0x2C command. *)
Lemma update_panel_feat_manual_120_counterexample :
  test_bit G10_FEAT_FRAME_AUTO
    (feat (sample_panel (sample_ctx nt37290_mode_120 0 0))) = false
  /\ (drm_mode_vrefresh nt37290_mode_120 =? 60) = false
  /\ exists s' cmds,
       nt37290_update_panel_feat
         (sample_panel (sample_ctx nt37290_mode_120 0 0)) (Some nt37290_mode_120) true
       = Some (true, s', cmds)
       /\ cmds = [DCS_BUF_ADD [0x2F; 0x00]; DCS_BUF_ADD_AND_FLUSH [0x44; 0x00; 0x00]]
       /\ existsb is_dev_warn cmds = false
       /\ existsb (writes_register 0x5A) cmds = false
       /\ existsb (writes_register 0x2C) cmds = false.
Proof.
  split; [reflexivity|]. split; [reflexivity|].
  do 2 eexists. split; [vm_compute; reflexivity|].
  split; [reflexivity|].
  split; [reflexivity|].
  split; reflexivity.
Qed.

(** ** Power off *)

Lemma bitmap_clear_empty (m : bitmap) :
  bitmap_empty (bitmap_clear m 0 G10_FEAT_MAX) G10_FEAT_MAX = true.
Proof.
  unfold bitmap_empty, bitmap_clear.
  change (Z.shiftl (Z.ones G10_FEAT_MAX) 0) with 3.
  change (BITMAP_LAST_WORD_MASK G10_FEAT_MAX) with 3.
  apply Z.eqb_eq. apply Z.bits_inj'. intros n _.
  rewrite Z.land_spec, Z.ldiff_spec, Z.bits_0.
  destruct (Z.testbit m n), (Z.testbit 3 n); reflexivity.
Qed.

(** C9, as the code has it: [nt37290_disable] resets the committed state to
    what probe sets -- both committed feature bits clear, [hw_vrefresh] 60,
    [hw_idle_vrefresh] 0 -- and hands the common context to
    [exynos_panel_disable]; the desired features [feat], the resolved idle
    rate and [delayed_idle] stay as they were. *)
Theorem disable_resets_committed_state
    (exynos_panel_disable exynos_panel_common_init : exynos_panel -> exynos_panel * Z)
    (s : nt37290_panel) :
  let s' := fst (nt37290_disable exynos_panel_disable s) in
  (test_bit G10_FEAT_EARLY_EXIT (hw_feat s') = false
   /\ test_bit G10_FEAT_FRAME_AUTO (hw_feat s') = false
   /\ bitmap_empty (hw_feat s') G10_FEAT_MAX = true
   /\ hw_vrefresh s' = 60
   /\ hw_idle_vrefresh s' = 0)
  /\ (feat s' = feat s
      /\ auto_mode_vrefresh s' = auto_mode_vrefresh s
      /\ delayed_idle s' = delayed_idle s)
  /\ (base s' = fst (exynos_panel_disable (base s))
      /\ snd (nt37290_disable exynos_panel_disable s)
         = snd (exynos_panel_disable (base s)))
  /\ (exists p ret,
        nt37290_panel_probe exynos_panel_common_init true = (Some p, ret)
        /\ bitmap_empty (hw_feat p) G10_FEAT_MAX = true
        /\ hw_vrefresh p = hw_vrefresh s'
        /\ hw_idle_vrefresh p = hw_idle_vrefresh s'
        /\ feat p = 0 /\ auto_mode_vrefresh p = 0 /\ delayed_idle p = false).
Proof.
  cbv zeta. unfold nt37290_disable, nt37290_panel_probe.
  fields.
  destruct (exynos_panel_disable (base s)) as [ctx ret].
  destruct (exynos_panel_common_init exynos_panel_zeroed) as [ctx0 ret0].
  fields.
  repeat split; try apply test_bit_bitmap_clear; try apply bitmap_clear_empty.
  exists (mk_nt37290_panel ctx0 0 0 60 0 0 false), ret0.
  repeat split.
Qed.

(** Against C9 as worded: after a frequency change that turned idling on,
    power off leaves both desired feature bits set and the resolved idle
    rate at 30 Hz; after one that put idling off for the idle delay, power
    off leaves [delayed_idle] true. *)
Lemma disable_keeps_desired_state_counterexample :
  (exists s1 cmds,
     nt37290_change_frequency 0
       (sample_panel (sample_ctx nt37290_mode_120 30 0)) nt37290_mode_120
     = Some (true, s1, cmds)
     /\ test_bit G10_FEAT_EARLY_EXIT
          (feat (fst (nt37290_disable sample_panel_disable s1))) = true
     /\ test_bit G10_FEAT_FRAME_AUTO
          (feat (fst (nt37290_disable sample_panel_disable s1))) = true
     /\ auto_mode_vrefresh (fst (nt37290_disable sample_panel_disable s1)) = 30)
  /\ (exists s2 cmds,
        nt37290_change_frequency 30
          (sample_panel (sample_ctx sample_mode_120_inactivity 30 50))
          sample_mode_120_inactivity
        = Some (true, s2, cmds)
        /\ delayed_idle (fst (nt37290_disable sample_panel_disable s2)) = true).
Proof.
  split.
  - do 2 eexists. split; [vm_compute; reflexivity|].
    split; [reflexivity|]. split; reflexivity.
  - do 2 eexists. split; [vm_compute; reflexivity|]. reflexivity.
Qed.

(** ** The early-exit trigger *)

Lemma panel_feat_cmds_no_dcs_write (vrefresh idle : Z) (ee fi : bool) :
  existsb is_dcs_write (panel_feat_cmds vrefresh idle ee fi) = false.
Proof.
  unfold panel_feat_cmds, frame_insertion_cmds.
  destruct fi, ee, (vrefresh =? 120), (vrefresh =? 60),
           (idle =? 10), (idle =? 30), (idle =? 60); reflexivity.
Qed.





(** ** The committed idle rate stays a tier

    Probe and power off set [hw_idle_vrefresh] to 0, and a frequency change
    commits the resolved rate, so the rate [nt37290_get_te2_option] reads is
    never negative. *)
Lemma change_frequency_hw_idle_tier (d : Z) (s : nt37290_panel)
    (pmode cur : exynos_panel_mode) :
  current_mode (base s) = Some cur ->
  exists updated s' cmds,
    nt37290_change_frequency d s pmode = Some (updated, s', cmds)
    /\ is_idle_tier (hw_idle_vrefresh s')
    /\ hw_idle_vrefresh s' = auto_mode_vrefresh s'
    /\ hw_vrefresh s' = drm_mode_vrefresh pmode.
Proof.
  intros Hcur.
  rewrite (change_frequency_run d s pmode cur Hcur). cbv zeta.
  do 3 eexists. split; [reflexivity|].
  cbn [hw_idle_vrefresh auto_mode_vrefresh hw_vrefresh].
  split; [apply update_min_idle_vrefresh_auto_tier | auto].
Qed.

Lemma change_frequency_null_mode (d : Z) (s : nt37290_panel) (pmode : exynos_panel_mode) :
  current_mode (base s) = None -> nt37290_change_frequency d s pmode = None.
Proof.
  intros H. unfold nt37290_change_frequency. now rewrite H.
Qed.

(** ** Entry points and the mode table *)

Lemma panel_probe_defaults
    (exynos_panel_common_init : exynos_panel -> exynos_panel * Z) :
  nt37290_panel_probe exynos_panel_common_init false = (None, - ENOMEM)
  /\ nt37290_panel_probe exynos_panel_common_init true
     = (Some (mk_nt37290_panel
                (fst (exynos_panel_common_init exynos_panel_zeroed)) 0 0 60 0 0 false),
        snd (exynos_panel_common_init exynos_panel_zeroed)).
Proof.
  split; [reflexivity|].
  unfold nt37290_panel_probe. fields.
  destruct (exynos_panel_common_init exynos_panel_zeroed); reflexivity.
Qed.

Example panel_probe_sample :
  nt37290_panel_probe sample_common_init true
  = (Some (sample_panel exynos_panel_zeroed), 0).
Proof. reflexivity. Qed.

Lemma mode_set_inactive (is_panel_active : exynos_panel -> bool)
    (d : Z) (s : nt37290_panel) (pmode : exynos_panel_mode) :
  is_panel_active (base s) = false ->
  nt37290_mode_set is_panel_active d s pmode = Some (s, [])
  /\ nt37290_set_nolp_mode is_panel_active d s pmode = Some (s, [])
  /\ nt37290_commit_done is_panel_active d d d s = Some (s, []).
Proof.
  intros H.
  unfold nt37290_mode_set, nt37290_set_nolp_mode, nt37290_commit_done.
  rewrite H. auto.
Qed.

Lemma set_self_refresh_lp_mode (d : Z) (s : nt37290_panel) (enable : bool)
    (pmode : exynos_panel_mode) :
  current_mode (base s) = Some pmode ->
  is_lp_mode pmode = true ->
  nt37290_set_self_refresh d s enable = Some (false, s, []).
Proof.
  intros Hcur Hlp. unfold nt37290_set_self_refresh. now rewrite Hcur, Hlp.
Qed.

(** A mode that does not support idling never gets an idle rate. *)
Lemma update_min_idle_vrefresh_unsupported (d : Z) (s : nt37290_panel)
    (pmode : exynos_panel_mode) :
  idle_mode pmode = IDLE_MODE_UNSUPPORTED ->
  auto_mode_vrefresh (nt37290_update_min_idle_vrefresh d s pmode) = 0
  /\ delayed_idle (nt37290_update_min_idle_vrefresh d s pmode) = false.
Proof.
  intros Hmode.
  rewrite update_min_idle_vrefresh_auto, update_min_idle_vrefresh_delayed.
  assert (H : min_idle_vrefresh_below_target (base s) pmode = 0).
  { unfold min_idle_vrefresh_below_target, min_idle_vrefresh_tier.
    rewrite Hmode. cbn [idle_mode_eqb]. rewrite orb_true_r.
    destruct (0 >=? drm_mode_vrefresh pmode); reflexivity. }
  rewrite H. split; reflexivity.
Qed.

(** Leaving AOD for the 120 Hz mode: the exit command, the forced batch
    and the three closing writes. *)
Example set_nolp_mode_sample :
  option_map snd
    (nt37290_set_nolp_mode sample_panel_active 0
       (sample_panel (sample_ctx nt37290_lp_mode 0 0)) nt37290_mode_120)
  = Some [ DCS_WRITE [0x38] 34;
           DCS_BUF_ADD [0x2F; 0x00];
           DCS_BUF_ADD_AND_FLUSH [0x44; 0x00; 0x00];
           BACKLIGHT_STATE_CHANGED;
           DCS_WRITE stream_2c 34;
           DCS_WRITE stream_2c 0;
           DCS_WRITE display_on 0 ].
Proof. reflexivity. Qed.

(** On the modes of the table a frequency change never meets an
    unsupported combination: no warning is raised, whatever the state, the
    minimum rate, the idle delay and the elapsed time. *)
Lemma change_frequency_table_no_warning (d : Z) (s : nt37290_panel)
    (cur pmode : exynos_panel_mode) :
  current_mode (base s) = Some cur ->
  In pmode nt37290_modes ->
  exists updated s' cmds,
    nt37290_change_frequency d s pmode = Some (updated, s', cmds)
    /\ existsb is_dev_warn cmds = false.
Proof.
  intros Hcur Hin.
  rewrite (change_frequency_run d s pmode cur Hcur). cbv zeta.
  do 3 eexists. split; [reflexivity|].
  destruct (panel_feat_changed _ _ _ _); [|reflexivity].
  rewrite existsb_app, orb_false_r.
  rewrite !test_bit_coupled_feat.
  pose proof (update_min_idle_vrefresh_auto_tier d s pmode) as Htier.
  set (s1 := nt37290_update_min_idle_vrefresh d s pmode) in *.
  unfold panel_feat_cmds, frame_insertion_cmds.
  destruct Hin as [<- | [<- | []]].
  - assert (Hoff : idle_active s1 nt37290_mode_60 = false).
    { unfold idle_active. cbn [idle_mode nt37290_mode_60 idle_mode_eqb].
      now rewrite andb_false_r. }
    rewrite Hoff. reflexivity.
  - destruct (idle_active s1 nt37290_mode_120) eqn:Hactive; [|reflexivity].
    assert (Hnz : auto_mode_vrefresh s1 <> 0).
    { unfold idle_active in Hactive.
      destruct (Z.eqb_spec (auto_mode_vrefresh s1) 0); [discriminate | assumption]. }
    destruct Htier as [E | [E | [E | E]]]; [contradiction | | |];
      rewrite E; reflexivity.
Qed.

(** * Further properties of the driver *)

(** ** The resolver and the frequency change *)

Lemma bitmap_empty_xor_test_bit (a b : bitmap) (f : nt37290_panel_feature) :
  bitmap_empty (bitmap_xor a b G10_FEAT_MAX) G10_FEAT_MAX = true ->
  test_bit f a = test_bit f b.
Proof.
  unfold bitmap_empty, bitmap_xor, test_bit.
  change (BITMAP_LAST_WORD_MASK G10_FEAT_MAX) with 3.
  intros H. apply Z.eqb_eq in H.
  assert (Hbit : Z.testbit (Z.land (Z.lxor a b) 3) (feature_nr f) = false)
    by (rewrite H; apply Z.bits_0).
  rewrite Z.land_spec, Z.lxor_spec in Hbit.
  destruct f; cbn [feature_nr] in *;
    [change (Z.testbit 3 0) with true in Hbit
    |change (Z.testbit 3 1) with true in Hbit];
    rewrite andb_true_r in Hbit;
    destruct (Z.testbit a _), (Z.testbit b _); try reflexivity; discriminate.
Qed.

Lemma panel_feat_cmds_head (vrefresh idle : Z) (ee fi : bool) :
  exists rest, panel_feat_cmds vrefresh idle ee fi = DCS_BUF_ADD [0x2F; 0x00] :: rest.
Proof.
  unfold panel_feat_cmds.
  destruct (_ && _); eexists; reflexivity.
Qed.

Lemma min_idle_vrefresh_below_target_zero (ctx : exynos_panel) (pmode : exynos_panel_mode) :
  min_idle_vrefresh_tier ctx pmode = 0 -> min_idle_vrefresh_below_target ctx pmode = 0.
Proof.
  intros H. unfold min_idle_vrefresh_below_target. rewrite H.
  destruct (0 >=? drm_mode_vrefresh pmode); reflexivity.
Qed.

(** X1: while auto mode is not allowed (HBM on, dimming on, or panel idle
    not enabled), or the minimum rate is 0, or the mode does not support
    idling, a frequency change on a panel with a current mode leaves both
    feature bits clear, resolves and commits idle rate 0, reports idle rate
    0 and does not mark idling as delayed. *)
Theorem change_frequency_auto_mode_off
    (d : Z) (s : nt37290_panel) (pmode cur : exynos_panel_mode) :
  current_mode (base s) = Some cur ->
  min_vrefresh (base s) = 0
  \/ IS_HBM_ON (hbm_mode (base s)) = true
  \/ dimming_on (base s) = true
  \/ panel_idle_enabled (base s) = false
  \/ idle_mode pmode = IDLE_MODE_UNSUPPORTED ->
  exists updated s' cmds,
    nt37290_change_frequency d s pmode = Some (updated, s', cmds)
    /\ test_bit G10_FEAT_EARLY_EXIT (feat s') = false
    /\ test_bit G10_FEAT_FRAME_AUTO (feat s') = false
    /\ auto_mode_vrefresh s' = 0
    /\ hw_idle_vrefresh s' = 0
    /\ panel_idle_vrefresh (base s') = 0
    /\ delayed_idle s' = false.
Proof.
  intros Hcur Hoff.
  assert (Htier : min_idle_vrefresh_tier (base s) pmode = 0).
  { assert (Hcond : (min_vrefresh (base s) =? 0) || negb (is_auto_mode_allowed (base s))
                    || idle_mode_eqb (idle_mode pmode) IDLE_MODE_UNSUPPORTED = true).
    { unfold is_auto_mode_allowed.
      destruct Hoff as [H | [H | [H | [H | H]]]]; rewrite H;
        destruct (min_vrefresh (base s) =? 0), (IS_HBM_ON (hbm_mode (base s))),
                 (dimming_on (base s)), (panel_idle_enabled (base s)),
                 (idle_mode_eqb (idle_mode pmode) IDLE_MODE_UNSUPPORTED);
        reflexivity. }
    unfold min_idle_vrefresh_tier. rewrite Hcond. reflexivity. }
  pose proof (min_idle_vrefresh_below_target_zero _ _ Htier) as Hrate.
  pose proof (update_min_idle_vrefresh_auto d s pmode) as Hauto.
  pose proof (update_min_idle_vrefresh_delayed d s pmode) as Hdelayed.
  cbv zeta in Hauto, Hdelayed. rewrite Hrate in Hauto, Hdelayed.
  cbn [Z.eqb negb andb] in Hauto, Hdelayed.
  rewrite (change_frequency_run d s pmode cur Hcur). cbv zeta.
  do 3 eexists. split; [reflexivity|].
  cbn [feat auto_mode_vrefresh hw_idle_vrefresh delayed_idle base].
  rewrite !test_bit_coupled_feat.
  unfold idle_active. rewrite Hauto, Hdelayed.
  fields. cbn [Z.eqb negb andb].
  destruct (self_refresh_active (base s)); repeat split.
Qed.

(** X1 during HBM: a panel in the 120 Hz mode with a minimum rate of 30 Hz
    does not idle. *)
Lemma change_frequency_auto_mode_off_witness :
  exists updated s' cmds,
    nt37290_change_frequency 0
      (sample_panel
         (mk_exynos_panel (Some nt37290_mode_120) 30 HBM_ON_IRC_ON false true 0 true 0 0 0))
      nt37290_mode_120
    = Some (updated, s', cmds)
    /\ test_bit G10_FEAT_EARLY_EXIT (feat s') = false
    /\ auto_mode_vrefresh s' = 0.
Proof.
  destruct (change_frequency_auto_mode_off 0
              (sample_panel
                 (mk_exynos_panel (Some nt37290_mode_120) 30 HBM_ON_IRC_ON false true 0
                    true 0 0 0))
              nt37290_mode_120 nt37290_mode_120 eq_refl)
    as (updated & s' & cmds & Hrun & Hee & _ & Hauto & _).
  - right. left. reflexivity.
  - exists updated, s', cmds. auto.
Defined.

(** X2: [nt37290_update_min_idle_vrefresh] marks idling as delayed only when
    there is an idle rate to put off: then the tier of the minimum rate is
    not 0 and below the target, an idle delay is configured, the elapsed
    time is strictly below it, and the stored idle rate is 0. *)
Theorem update_min_idle_vrefresh_delayed_only_if
    (d : Z) (s : nt37290_panel) (pmode : exynos_panel_mode) :
  delayed_idle (nt37290_update_min_idle_vrefresh d s pmode) = true ->
  auto_mode_vrefresh (nt37290_update_min_idle_vrefresh d s pmode) = 0
  /\ min_idle_vrefresh_tier (base s) pmode <> 0
  /\ min_idle_vrefresh_tier (base s) pmode < drm_mode_vrefresh pmode
  /\ idle_delay_ms (base s) <> 0
  /\ d < idle_delay_ms (base s).
Proof.
  rewrite update_min_idle_vrefresh_auto, update_min_idle_vrefresh_delayed.
  intros H. rewrite H.
  apply andb_prop in H. destruct H as [H Hlt].
  apply andb_prop in H. destruct H as [Hrate Hdelay].
  split; [reflexivity|].
  apply negb_true_iff, Z.eqb_neq in Hrate, Hdelay.
  apply min_idle_vrefresh_below_target_nonzero in Hrate.
  apply Z.ltb_lt in Hlt.
  tauto.
Qed.

Lemma update_min_idle_vrefresh_delayed_only_if_witness :
  auto_mode_vrefresh
    (nt37290_update_min_idle_vrefresh 30
       (sample_panel (sample_ctx nt37290_mode_120 30 50)) nt37290_mode_120) = 0
  /\ min_idle_vrefresh_tier (sample_ctx nt37290_mode_120 30 50) nt37290_mode_120 = 30.
Proof.
  destruct (update_min_idle_vrefresh_delayed_only_if 30
              (sample_panel (sample_ctx nt37290_mode_120 30 50)) nt37290_mode_120 eq_refl)
    as [H _].
  split; [exact H | reflexivity].
Defined.

Lemma panel_feat_cmds_no_backlight (vrefresh idle : Z) (ee fi : bool) :
  existsb is_backlight_event (panel_feat_cmds vrefresh idle ee fi) = false.
Proof.
  unfold panel_feat_cmds, frame_insertion_cmds.
  destruct fi, ee, (vrefresh =? 120), (vrefresh =? 60),
           (idle =? 10), (idle =? 30), (idle =? 60); reflexivity.
Qed.

Lemma panel_feat_cmds_flushes (vrefresh idle : Z) (ee fi : bool) :
  existsb is_flush (panel_feat_cmds vrefresh idle ee fi) = true.
Proof.
  unfold panel_feat_cmds, frame_insertion_cmds.
  destruct fi, ee, (vrefresh =? 120), (vrefresh =? 60),
           (idle =? 10), (idle =? 30), (idle =? 60); reflexivity.
Qed.

(** X3: a frequency change on a panel with a current mode notifies the
    backlight exactly when it returns true, and then it has flushed a batch;
    when it returns false it emits nothing and leaves the committed
    features and rates as they were. *)
Theorem change_frequency_backlight_iff_updated
    (d : Z) (s : nt37290_panel) (pmode cur : exynos_panel_mode) :
  current_mode (base s) = Some cur ->
  exists updated s' cmds,
    nt37290_change_frequency d s pmode = Some (updated, s', cmds)
    /\ existsb is_backlight_event cmds = updated
    /\ existsb is_flush cmds = updated
    /\ (updated = false ->
        cmds = []
        /\ hw_feat s' = hw_feat s
        /\ hw_vrefresh s' = hw_vrefresh s
        /\ hw_idle_vrefresh s' = hw_idle_vrefresh s).
Proof.
  intros Hcur.
  rewrite (change_frequency_run d s pmode cur Hcur). cbv zeta.
  do 3 eexists. split; [reflexivity|].
  destruct (panel_feat_changed _ _ _ _) eqn:Hchanged.
  - rewrite !existsb_app, panel_feat_cmds_no_backlight, panel_feat_cmds_flushes.
    split; [reflexivity|]. split; [reflexivity|]. discriminate.
  - split; [reflexivity|]. split; [reflexivity|]. intros _.
    split; [reflexivity|]. split; [reflexivity|]. split.
    + apply panel_feat_unchanged_inv in Hchanged.
      destruct Hchanged as (_ & _ & Hv & _).
      destruct (update_min_idle_vrefresh_frame d s pmode) as (_ & _ & _ & Hhv & _).
      fields_in Hv. cbn [hw_vrefresh]. congruence.
    + apply panel_feat_unchanged_inv in Hchanged.
      destruct Hchanged as (_ & _ & _ & Hi).
      destruct (update_min_idle_vrefresh_frame d s pmode) as (_ & _ & _ & _ & Hhi).
      fields_in Hi. cbn [hw_idle_vrefresh]. congruence.
Qed.

Lemma change_frequency_backlight_iff_updated_witness :
  exists s' cmds,
    nt37290_change_frequency 0
      (sample_panel (sample_ctx nt37290_mode_120 30 0)) nt37290_mode_120
    = Some (true, s', cmds)
    /\ existsb is_backlight_event cmds = true.
Proof.
  destruct (change_frequency_backlight_iff_updated 0
              (sample_panel (sample_ctx nt37290_mode_120 30 0))
              nt37290_mode_120 nt37290_mode_120 eq_refl)
    as (updated & s' & cmds & Hrun & Hbl & _).
  assert (Hup : updated = true).
  { pose proof Hrun as Hrun'. vm_compute in Hrun'.
    injection Hrun' as Hu _ _. symmetry. exact Hu. }
  rewrite Hup in Hrun, Hbl. exists s', cmds. split; assumption.
Defined.

(** X4: while the current mode is a low-power mode, a frequency change
    always sends the batch: it returns true, the batch starts with the
    frequency mode command 0x2F 0x00 and the backlight is notified. *)
Theorem change_frequency_exit_lp_flushes
    (d : Z) (s : nt37290_panel) (pmode cur : exynos_panel_mode) :
  current_mode (base s) = Some cur ->
  is_lp_mode cur = true ->
  exists s' rest,
    nt37290_change_frequency d s pmode
    = Some (true, s', DCS_BUF_ADD [0x2F; 0x00] :: rest)
    /\ existsb is_flush rest = true
    /\ existsb is_backlight_event rest = true.
Proof.
  intros Hcur Hlp.
  rewrite (change_frequency_run d s pmode cur Hcur). cbv zeta.
  rewrite Hlp. cbn [panel_feat_changed].
  set (s1 := nt37290_update_min_idle_vrefresh d s pmode).
  set (f := coupled_feat (idle_active s1 pmode) (feat s)).
  pose proof (panel_feat_cmds_flushes (drm_mode_vrefresh pmode) (auto_mode_vrefresh s1)
                (test_bit G10_FEAT_EARLY_EXIT f) (test_bit G10_FEAT_FRAME_AUTO f)) as Hflush.
  destruct (panel_feat_cmds_head (drm_mode_vrefresh pmode) (auto_mode_vrefresh s1)
              (test_bit G10_FEAT_EARLY_EXIT f) (test_bit G10_FEAT_FRAME_AUTO f))
    as [rest Hrest].
  rewrite Hrest in Hflush |- *. cbn [existsb is_flush orb] in Hflush.
  do 2 eexists. split; [reflexivity|].
  rewrite !existsb_app, Hflush. split; [reflexivity|].
  cbn [existsb is_backlight_event]. now rewrite !orb_true_r.
Qed.

Lemma change_frequency_exit_lp_flushes_witness :
  exists s' rest,
    nt37290_change_frequency 0
      (sample_panel (sample_ctx nt37290_lp_mode 0 0)) nt37290_mode_120
    = Some (true, s', DCS_BUF_ADD [0x2F; 0x00] :: rest)
    /\ existsb is_flush rest = true.
Proof.
  destruct (change_frequency_exit_lp_flushes 0
              (sample_panel (sample_ctx nt37290_lp_mode 0 0))
              nt37290_mode_120 nt37290_lp_mode eq_refl eq_refl)
    as (s' & rest & Hrun & Hflush & _).
  exists s', rest. auto.
Defined.

(** X5: after a frequency change on a panel with a current mode, whether
    it sent the batch or not, the committed state agrees with the desired
    one: each committed feature bit equals the desired bit, the committed
    rate is the rate of the requested mode, and the committed idle rate is
    the resolved one, a value among 0, 10, 30 and 60. *)
Theorem change_frequency_commits_desired
    (d : Z) (s : nt37290_panel) (pmode cur : exynos_panel_mode) :
  current_mode (base s) = Some cur ->
  exists updated s' cmds,
    nt37290_change_frequency d s pmode = Some (updated, s', cmds)
    /\ (forall f, test_bit f (hw_feat s') = test_bit f (feat s'))
    /\ hw_vrefresh s' = drm_mode_vrefresh pmode
    /\ hw_idle_vrefresh s' = auto_mode_vrefresh s'
    /\ (hw_idle_vrefresh s' = 0 \/ hw_idle_vrefresh s' = 10
        \/ hw_idle_vrefresh s' = 30 \/ hw_idle_vrefresh s' = 60).
Proof.
  intros Hcur.
  rewrite (change_frequency_run d s pmode cur Hcur). cbv zeta.
  do 3 eexists. split; [reflexivity|].
  cbn [hw_feat feat hw_vrefresh hw_idle_vrefresh auto_mode_vrefresh].
  split; [|split; [reflexivity|split; [reflexivity|]]].
  - intros f.
    destruct (panel_feat_changed _ _ _ _) eqn:Hchanged; [reflexivity|].
    apply panel_feat_unchanged_inv in Hchanged.
    destruct Hchanged as (_ & Hempty & _).
    destruct (update_min_idle_vrefresh_frame d s pmode) as (_ & _ & Hhf & _).
    fields_in Hempty. rewrite Hhf in Hempty.
    symmetry. apply bitmap_empty_xor_test_bit. exact Hempty.
  - apply update_min_idle_vrefresh_auto_tier.
Qed.

Lemma change_frequency_commits_desired_witness :
  exists updated s' cmds,
    nt37290_change_frequency 0
      (sample_panel (sample_ctx nt37290_mode_120 30 0)) nt37290_mode_120
    = Some (updated, s', cmds)
    /\ test_bit G10_FEAT_FRAME_AUTO (hw_feat s') = test_bit G10_FEAT_FRAME_AUTO (feat s')
    /\ hw_vrefresh s' = 120.
Proof.
  destruct (change_frequency_commits_desired 0
              (sample_panel (sample_ctx nt37290_mode_120 30 0))
              nt37290_mode_120 nt37290_mode_120 eq_refl)
    as (updated & s' & cmds & Hrun & Hfeat & Hv & _).
  exists updated, s', cmds. auto.
Defined.

(** X6: a frequency change writes one field of the common context, the
    reported idle rate: the current mode, the minimum rate, the HBM and
    dimming flags, the idle settings, the self-refresh flag and both
    timestamps are as before the call. *)
Theorem change_frequency_keeps_context
    (d : Z) (s : nt37290_panel) (pmode cur : exynos_panel_mode) :
  current_mode (base s) = Some cur ->
  exists updated s' cmds,
    nt37290_change_frequency d s pmode = Some (updated, s', cmds)
    /\ base s' = set_panel_idle_vrefresh (panel_idle_vrefresh (base s')) (base s)
    /\ current_mode (base s') = Some cur
    /\ last_commit_ts (base s') = last_commit_ts (base s)
    /\ last_mode_set_ts (base s') = last_mode_set_ts (base s)
    /\ self_refresh_active (base s') = self_refresh_active (base s).
Proof.
  intros Hcur.
  rewrite (change_frequency_run d s pmode cur Hcur). cbv zeta.
  do 3 eexists. split; [reflexivity|].
  fields. repeat split. exact Hcur.
Qed.

Lemma change_frequency_keeps_context_witness :
  exists updated s' cmds,
    nt37290_change_frequency 0
      (sample_panel (sample_ctx nt37290_lp_mode 30 0)) nt37290_mode_120
    = Some (updated, s', cmds)
    /\ current_mode (base s') = Some nt37290_lp_mode.
Proof.
  destruct (change_frequency_keeps_context 0
              (sample_panel (sample_ctx nt37290_lp_mode 30 0))
              nt37290_mode_120 nt37290_lp_mode eq_refl)
    as (updated & s' & cmds & Hrun & _ & Hmode & _).
  exists updated, s', cmds. auto.
Defined.

(** X7: for a mode that idles on self refresh, a frequency change outside
    self refresh leaves both feature bits clear and reports idle rate 0;
    at a target of 120 Hz the batch, when sent, is the two-command manual
    one followed by the backlight notification. *)
Theorem change_frequency_outside_self_refresh
    (d : Z) (s : nt37290_panel) (pmode cur : exynos_panel_mode) :
  current_mode (base s) = Some cur ->
  idle_mode pmode = IDLE_MODE_ON_SELF_REFRESH ->
  self_refresh_active (base s) = false ->
  exists updated s' cmds,
    nt37290_change_frequency d s pmode = Some (updated, s', cmds)
    /\ test_bit G10_FEAT_EARLY_EXIT (feat s') = false
    /\ test_bit G10_FEAT_FRAME_AUTO (feat s') = false
    /\ panel_idle_vrefresh (base s') = 0
    /\ (drm_mode_vrefresh pmode = 120 ->
        cmds = if updated
               then [ DCS_BUF_ADD [0x2F; 0x00];
                      DCS_BUF_ADD_AND_FLUSH [0x44; 0x00; 0x00];
                      BACKLIGHT_STATE_CHANGED ]
               else []).
Proof.
  intros Hcur Hmode Hsr.
  rewrite (change_frequency_run d s pmode cur Hcur). cbv zeta.
  do 3 eexists. split; [reflexivity|].
  cbn [feat base].
  rewrite !test_bit_coupled_feat.
  assert (Hoff : idle_active (nt37290_update_min_idle_vrefresh d s pmode) pmode = false).
  { unfold idle_active.
    destruct (update_min_idle_vrefresh_frame d s pmode) as [-> _].
    rewrite Hmode, Hsr. cbn [idle_mode_eqb orb andb]. apply andb_false_r. }
  rewrite Hoff, Hsr. fields.
  repeat split.
  intros H120. rewrite H120.
  destruct (panel_feat_changed _ _ _ _); reflexivity.
Qed.

Lemma change_frequency_outside_self_refresh_witness :
  exists s',
    nt37290_change_frequency 0
      (set_self_refresh_active false (sample_panel (sample_ctx nt37290_mode_120 30 0)))
      nt37290_mode_120
    = Some (true, s',
            [ DCS_BUF_ADD [0x2F; 0x00];
              DCS_BUF_ADD_AND_FLUSH [0x44; 0x00; 0x00];
              BACKLIGHT_STATE_CHANGED ])
    /\ test_bit G10_FEAT_EARLY_EXIT (feat s') = false.
Proof.
  destruct (change_frequency_outside_self_refresh 0
              (set_self_refresh_active false
                 (sample_panel (sample_ctx nt37290_mode_120 30 0)))
              nt37290_mode_120 nt37290_mode_120 eq_refl eq_refl eq_refl)
    as (updated & s' & cmds & Hrun & Hee & _ & _ & Hcmds).
  assert (Hup : updated = true).
  { pose proof Hrun as Hrun'. vm_compute in Hrun'.
    injection Hrun' as Hu _ _. symmetry. exact Hu. }
  rewrite Hup in Hrun, Hcmds. rewrite (Hcmds eq_refl) in Hrun.
  exists s'. split; assumption.
Defined.

(** ** The panel-feature batch *)

(** What a call of [nt37290_update_panel_feat] that returns true has done. *)
Lemma update_panel_feat_true_inv (s s' : nt37290_panel)
    (pmode : option exynos_panel_mode) (enforce : bool) (cmds : list panel_event) :
  nt37290_update_panel_feat s pmode enforce = Some (true, s', cmds) ->
  exists vrefresh,
    panel_feat_vrefresh (base s) pmode = Some vrefresh
    /\ s' = mk_nt37290_panel (set_panel_idle_vrefresh 0 (base s)) (feat s) (feat s)
              vrefresh (int_of_u32 (auto_mode_vrefresh s))
              (auto_mode_vrefresh s) (delayed_idle s)
    /\ cmds = panel_feat_cmds vrefresh (int_of_u32 (auto_mode_vrefresh s))
                (test_bit G10_FEAT_EARLY_EXIT (feat s))
                (test_bit G10_FEAT_FRAME_AUTO (feat s)).
Proof.
  intros Hrun.
  destruct (panel_feat_vrefresh (base s) pmode) as [vrefresh|] eqn:Hv.
  - rewrite (update_panel_feat_run s pmode enforce vrefresh Hv) in Hrun.
    cbv zeta in Hrun.
    destruct (panel_feat_changed _ _ _ _); [|discriminate].
    injection Hrun as <- <-. exists vrefresh. auto.
  - unfold nt37290_update_panel_feat in Hrun. rewrite Hv in Hrun. discriminate.
Qed.

(** X8: whatever a first call of [nt37290_update_panel_feat] did, forced
    or not, a second call for the same mode that is not forced finds
    nothing to do: it returns false, emits nothing and leaves the state as
    the first call left it. *)
Theorem update_panel_feat_twice
    (s s1 : nt37290_panel) (pmode : option exynos_panel_mode) (enforce updated : bool)
    (cmds : list panel_event) :
  nt37290_update_panel_feat s pmode enforce = Some (updated, s1, cmds) ->
  nt37290_update_panel_feat s1 pmode false = Some (false, s1, []).
Proof.
  intros Hrun.
  destruct (panel_feat_vrefresh (base s) pmode) as [vrefresh|] eqn:Hv;
    [|unfold nt37290_update_panel_feat in Hrun; rewrite Hv in Hrun; discriminate].
  rewrite (update_panel_feat_run s pmode enforce vrefresh Hv) in Hrun.
  cbv zeta in Hrun.
  destruct (panel_feat_changed s vrefresh _ enforce) eqn:Hchanged;
    injection Hrun as <- <- <-.
  - match goal with
    | |- nt37290_update_panel_feat ?x _ _ = _ =>
        rewrite (update_panel_feat_run x pmode false vrefresh Hv)
    end.
    cbv zeta.
    unfold panel_feat_changed. cbn [feat hw_feat hw_vrefresh hw_idle_vrefresh
                                    auto_mode_vrefresh].
    rewrite bitmap_xor_self_empty, !Z.eqb_refl. reflexivity.
  - apply panel_feat_unchanged_inv in Hchanged.
    destruct Hchanged as (-> & Hempty & Hhv & Hhi).
    match goal with
    | |- nt37290_update_panel_feat ?x _ _ = _ =>
        rewrite (update_panel_feat_run x pmode false vrefresh Hv)
    end.
    cbv zeta.
    unfold panel_feat_changed. fields.
    rewrite Hempty, Hhv, Hhi, !Z.eqb_refl. reflexivity.
Qed.

Lemma update_panel_feat_twice_witness :
  exists s1 cmds,
    nt37290_update_panel_feat (sample_early_exit_panel 0) (Some nt37290_mode_120) true
    = Some (true, s1, cmds)
    /\ nt37290_update_panel_feat s1 (Some nt37290_mode_120) false = Some (false, s1, []).
Proof.
  do 2 eexists. split; [vm_compute; reflexivity|].
  eapply (update_panel_feat_twice (sample_early_exit_panel 0) _
            (Some nt37290_mode_120) true true).
  vm_compute. reflexivity.
Defined.

Lemma frame_insertion_cmds_queued (vrefresh idle : Z) (fi : bool) :
  existsb is_flush (frame_insertion_cmds vrefresh idle fi) = false
  /\ existsb is_dcs_write (frame_insertion_cmds vrefresh idle fi) = false
  /\ existsb is_backlight_event (frame_insertion_cmds vrefresh idle fi) = false.
Proof.
  unfold frame_insertion_cmds.
  destruct fi, (vrefresh =? 60), (idle =? 10), (idle =? 30), (idle =? 60);
    repeat split.
Qed.

Lemma panel_feat_cmds_shape (vrefresh idle : Z) (ee fi : bool) :
  exists mid,
    panel_feat_cmds vrefresh idle ee fi
    = DCS_BUF_ADD [0x2F; 0x00] :: mid
      ++ [DCS_BUF_ADD_AND_FLUSH [0x44; 0x00; if vrefresh =? 120 then 0x00 else 0x01]]
    /\ existsb is_flush mid = false
    /\ existsb is_dcs_write mid = false
    /\ existsb is_backlight_event mid = false.
Proof.
  unfold panel_feat_cmds.
  destruct ((vrefresh =? 120) && negb fi) eqn:Hmanual.
  - apply andb_prop in Hmanual. destruct Hmanual as [-> _].
    exists []. repeat split.
  - exists ([ DCS_BUF_ADD [0x2F; 0x30];
              DCS_BUF_ADD [0x5A; if ee then 0 else 1];
              DCS_BUF_ADD cmd2_page0;
              DCS_BUF_ADD [0x6F; 0x1C] ]
            ++ frame_insertion_cmds vrefresh idle fi ++ [DCS_BUF_ADD [0x2C]]).
    destruct (frame_insertion_cmds_queued vrefresh idle fi) as (Hf & Hw & Hb).
    split.
    + cbn [app]. rewrite <- app_assoc. cbn [app].
      destruct (vrefresh =? 120); reflexivity.
    + rewrite !existsb_app, Hf, Hw, Hb. repeat split.
Qed.

(** X9: every batch [nt37290_update_panel_feat] sends starts with the
    frequency mode command 0x2F 0x00 and ends with its only flush, the TE
    timing command 0x44, whose shift is 0 at a committed rate of 120 Hz and
    1 at any other; nothing in it is sent on its own. *)
Theorem update_panel_feat_batch_shape
    (s s' : nt37290_panel) (pmode : option exynos_panel_mode) (enforce : bool)
    (cmds : list panel_event) :
  nt37290_update_panel_feat s pmode enforce = Some (true, s', cmds) ->
  exists mid,
    cmds = DCS_BUF_ADD [0x2F; 0x00] :: mid
           ++ [DCS_BUF_ADD_AND_FLUSH
                 [0x44; 0x00; if hw_vrefresh s' =? 120 then 0x00 else 0x01]]
    /\ existsb is_flush mid = false
    /\ existsb is_dcs_write mid = false
    /\ existsb is_backlight_event mid = false.
Proof.
  intros Hrun.
  destruct (update_panel_feat_true_inv _ _ _ _ _ Hrun) as (v & _ & -> & ->).
  cbn [hw_vrefresh].
  apply panel_feat_cmds_shape.
Qed.

Lemma update_panel_feat_batch_shape_witness :
  exists s' mid,
    nt37290_update_panel_feat (sample_early_exit_panel 0) (Some nt37290_mode_120) true
    = Some (true, s',
            DCS_BUF_ADD [0x2F; 0x00] :: mid ++ [DCS_BUF_ADD_AND_FLUSH [0x44; 0x00; 0x00]])
    /\ existsb is_flush mid = false.
Proof.
  assert (Hrun : exists s' cmds,
             nt37290_update_panel_feat (sample_early_exit_panel 0)
               (Some nt37290_mode_120) true = Some (true, s', cmds)
             /\ hw_vrefresh s' = 120).
  { do 2 eexists. split; [vm_compute; reflexivity | reflexivity]. }
  destruct Hrun as (s' & cmds & Hrun & Hv).
  destruct (update_panel_feat_batch_shape _ _ _ _ _ Hrun) as (mid & Hcmds & Hflush & _).
  rewrite Hv in Hcmds. cbn [Z.eqb Pos.eqb] in Hcmds. subst cmds.
  exists s', mid. split; assumption.
Defined.

(** X10: the early exit register 0x5A holds the inverse of the EarlyExit
    feature: a batch that [nt37290_update_panel_feat] sends writes it once,
    with 1 when EarlyExit is clear and 0 when it is set, except in the
    manual batch at 120 Hz (FrameAuto clear), which does not write it. *)
Theorem update_panel_feat_early_exit_register
    (s s' : nt37290_panel) (pmode : option exynos_panel_mode) (enforce : bool)
    (cmds : list panel_event) :
  nt37290_update_panel_feat s pmode enforce = Some (true, s', cmds) ->
  filter (writes_register 0x5A) cmds
  = if (hw_vrefresh s' =? 120) && negb (test_bit G10_FEAT_FRAME_AUTO (feat s))
    then []
    else [DCS_BUF_ADD [0x5A; if test_bit G10_FEAT_EARLY_EXIT (feat s) then 0 else 1]].
Proof.
  intros Hrun.
  destruct (update_panel_feat_true_inv _ _ _ _ _ Hrun) as (v & _ & -> & ->).
  cbn [hw_vrefresh].
  unfold panel_feat_cmds, frame_insertion_cmds.
  destruct (test_bit G10_FEAT_FRAME_AUTO (feat s)),
           (test_bit G10_FEAT_EARLY_EXIT (feat s)),
           (v =? 120), (v =? 60),
           (int_of_u32 (auto_mode_vrefresh s) =? 10),
           (int_of_u32 (auto_mode_vrefresh s) =? 30),
           (int_of_u32 (auto_mode_vrefresh s) =? 60); reflexivity.
Qed.

Lemma update_panel_feat_early_exit_register_witness :
  exists s' cmds,
    nt37290_update_panel_feat (sample_early_exit_panel 0) (Some nt37290_mode_120) true
    = Some (true, s', cmds)
    /\ filter (writes_register 0x5A) cmds = [DCS_BUF_ADD [0x5A; 0]].
Proof.
  assert (Hrun : exists s' cmds,
             nt37290_update_panel_feat (sample_early_exit_panel 0)
               (Some nt37290_mode_120) true = Some (true, s', cmds)
             /\ hw_vrefresh s' = 120).
  { do 2 eexists. split; [vm_compute; reflexivity | reflexivity]. }
  destruct Hrun as (s' & cmds & Hrun & Hv).
  pose proof (update_panel_feat_early_exit_register _ _ _ _ _ Hrun) as Hreg.
  rewrite Hv in Hreg.
  exists s', cmds. split; [exact Hrun | exact Hreg].
Defined.

(** X11: a batch that [nt37290_update_panel_feat] sends carries a warning
    exactly when the combination has no frame insertion payload --
    FrameAuto clear at a rate other than 60 and 120, or FrameAuto set at
    an idle rate other than 10, 30 and 60; it writes the frame insertion
    register 0xBA once when it neither warns nor is the manual batch at
    120 Hz, and not at all otherwise. *)
Theorem update_panel_feat_warns_iff
    (s s' : nt37290_panel) (pmode : option exynos_panel_mode) (enforce : bool)
    (cmds : list panel_event) :
  nt37290_update_panel_feat s pmode enforce = Some (true, s', cmds) ->
  let v := hw_vrefresh s' in
  let idle := hw_idle_vrefresh s' in
  let fi := test_bit G10_FEAT_FRAME_AUTO (feat s) in
  existsb is_dev_warn cmds
  = (negb fi && negb (v =? 60) && negb (v =? 120))
    || (fi && negb (idle =? 10) && negb (idle =? 30) && negb (idle =? 60))
  /\ length (filter (writes_register 0xBA) cmds)
     = if existsb is_dev_warn cmds || ((v =? 120) && negb fi) then 0%nat else 1%nat.
Proof.
  intros Hrun.
  destruct (update_panel_feat_true_inv _ _ _ _ _ Hrun) as (v & _ & -> & ->).
  cbv zeta. cbn [hw_vrefresh hw_idle_vrefresh].
  unfold panel_feat_cmds, frame_insertion_cmds.
  destruct (test_bit G10_FEAT_FRAME_AUTO (feat s)),
           (test_bit G10_FEAT_EARLY_EXIT (feat s)),
           (v =? 120), (v =? 60),
           (int_of_u32 (auto_mode_vrefresh s) =? 10),
           (int_of_u32 (auto_mode_vrefresh s) =? 30),
           (int_of_u32 (auto_mode_vrefresh s) =? 60); split; reflexivity.
Qed.

Lemma update_panel_feat_warns_iff_witness :
  exists s' cmds,
    nt37290_update_panel_feat (sample_early_exit_panel 0) (Some nt37290_mode_120) true
    = Some (true, s', cmds)
    /\ existsb is_dev_warn cmds = false
    /\ length (filter (writes_register 0xBA) cmds) = 1%nat.
Proof.
  assert (Hrun : exists s' cmds,
             nt37290_update_panel_feat (sample_early_exit_panel 0)
               (Some nt37290_mode_120) true = Some (true, s', cmds)
             /\ hw_vrefresh s' = 120 /\ hw_idle_vrefresh s' = 30).
  { do 2 eexists. split; [vm_compute; reflexivity | split; reflexivity]. }
  destruct Hrun as (s' & cmds & Hrun & Hv & Hi).
  destruct (update_panel_feat_warns_iff _ _ _ _ _ Hrun) as [Hwarn Hba].
  rewrite Hv, Hi in Hwarn. rewrite Hwarn, Hv in Hba.
  exists s', cmds. split; [exact Hrun|]. split; [exact Hwarn | exact Hba].
Defined.

(** ** Commit done *)

(** X12: on an active panel whose current mode idles on inactivity, with
    EarlyExit clear and idling marked as delayed, [nt37290_commit_done]
    runs the frequency change for the current mode.  While the elapsed
    time is still below the idle delay and there is a rate to idle at,
    idling stays delayed with both features clear; once the delay has
    passed, the mark is dropped and, when there is a rate to idle at, both
    features are set and that rate is resolved. *)
Theorem commit_done_resumes_delayed_idle
    (is_panel_active : exynos_panel -> bool)
    (now now_mode_set d : Z) (s : nt37290_panel) (pmode : exynos_panel_mode) :
  is_panel_active (base s) = true ->
  current_mode (base s) = Some pmode ->
  test_bit G10_FEAT_EARLY_EXIT (feat s) = false ->
  idle_mode pmode = IDLE_MODE_ON_INACTIVITY ->
  delayed_idle s = true ->
  let rate := min_idle_vrefresh_below_target (base s) pmode in
  exists updated s' cmds,
    nt37290_change_frequency d s pmode = Some (updated, s', cmds)
    /\ nt37290_commit_done is_panel_active now now_mode_set d s = Some (s', cmds)
    /\ (rate <> 0 -> idle_delay_ms (base s) <> 0 -> d < idle_delay_ms (base s) ->
        delayed_idle s' = true
        /\ auto_mode_vrefresh s' = 0
        /\ test_bit G10_FEAT_EARLY_EXIT (feat s') = false
        /\ test_bit G10_FEAT_FRAME_AUTO (feat s') = false)
    /\ (idle_delay_ms (base s) <= d ->
        delayed_idle s' = false
        /\ auto_mode_vrefresh s' = rate
        /\ (rate <> 0 ->
            test_bit G10_FEAT_EARLY_EXIT (feat s') = true
            /\ test_bit G10_FEAT_FRAME_AUTO (feat s') = true)).
Proof.
  intros Hactive Hcur Hee Hmode Hdelayed. cbv zeta.
  unfold nt37290_commit_done. rewrite Hactive, Hcur, Hee, Hmode, Hdelayed.
  cbn [negb idle_mode_eqb andb].
  rewrite (change_frequency_run d s pmode pmode Hcur). cbv zeta.
  do 3 eexists. split; [reflexivity|]. split; [reflexivity|].
  cbn [delayed_idle auto_mode_vrefresh feat].
  rewrite !test_bit_coupled_feat.
  unfold idle_active. rewrite Hmode. cbn [idle_mode_eqb orb]. rewrite andb_true_r.
  rewrite update_min_idle_vrefresh_auto, update_min_idle_vrefresh_delayed.
  split.
  - intros Hrate Hdelay Hlt.
    destruct (Z.eqb_spec (min_idle_vrefresh_below_target (base s) pmode) 0);
      [contradiction|].
    destruct (Z.eqb_spec (idle_delay_ms (base s)) 0); [contradiction|].
    destruct (Z.ltb_spec d (idle_delay_ms (base s))); [|lia].
    repeat split.
  - intros Hge.
    destruct (Z.ltb_spec d (idle_delay_ms (base s))); [lia|].
    rewrite !andb_false_r.
    split; [reflexivity|]. split; [reflexivity|].
    intros Hrate.
    destruct (Z.eqb_spec (min_idle_vrefresh_below_target (base s) pmode) 0);
      [contradiction|].
    split; reflexivity.
Qed.

(** X12 with an idle delay of 50 ms that has passed: the panel starts to
    idle at 30 Hz. *)
Lemma commit_done_resumes_delayed_idle_witness :
  exists s' cmds,
    nt37290_commit_done sample_panel_active 0 0 51
      (set_delayed_idle true (sample_panel (sample_ctx sample_mode_120_inactivity 30 50)))
    = Some (s', cmds)
    /\ delayed_idle s' = false
    /\ auto_mode_vrefresh s' = 30
    /\ test_bit G10_FEAT_EARLY_EXIT (feat s') = true.
Proof.
  destruct (commit_done_resumes_delayed_idle sample_panel_active 0 0 51
              (set_delayed_idle true
                 (sample_panel (sample_ctx sample_mode_120_inactivity 30 50)))
              sample_mode_120_inactivity eq_refl eq_refl eq_refl eq_refl eq_refl)
    as (updated & s' & cmds & _ & Hrun & _ & Hresume).
  destruct Hresume as (Hdelayed & Hauto & Hfeat); [vm_compute; discriminate|].
  destruct Hfeat as [Hee _]; [vm_compute; discriminate|].
  exists s', cmds. auto.
Defined.

(** ** Local high brightness mode and brightness *)

Lemma u16_level_bytes (x : Z) :
  let level := u16_of_int x in
  let val1 := u8_of_int (Z.shiftr level 8) in
  let val2 := u8_of_int (Z.land level 0xff) in
  0 <= val1 <= 255 /\ 0 <= val2 <= 255 /\ val1 * 256 + val2 = x mod 65536.
Proof.
  cbv zeta. unfold u16_of_int, u8_of_int.
  change (2 ^ 16) with 65536. change (2 ^ 8) with 256.
  assert (Hlevel : 0 <= x mod 65536 < 65536) by (apply Z.mod_pos_bound; lia).
  set (level := x mod 65536) in *.
  rewrite Z.shiftr_div_pow2 by lia. change (2 ^ 8) with 256.
  change 0xff with (Z.ones 8). rewrite Z.land_ones by lia. change (2 ^ 8) with 256.
  rewrite Z.mod_mod by lia.
  assert (Hhigh : 0 <= level / 256 < 256).
  { split; [apply Z.div_pos; lia | apply Z.div_lt_upper_bound; lia]. }
  rewrite (Z.mod_small (level / 256)) by lia.
  pose proof (Z.mod_pos_bound level 256 ltac:(lia)) as Hlow.
  pose proof (Z.div_mod level 256 ltac:(lia)) as Hsplit.
  change (Z.ones 8) with 255. clearbody level.
  lia.
Qed.

Lemma lhbm_dbv_cmds_queued (level : Z) :
  existsb is_flush (lhbm_dbv_cmds level) = false
  /\ existsb is_dcs_write (lhbm_dbv_cmds level) = false.
Proof. split; reflexivity. Qed.

(** X13: [nt37290_set_local_hbm_mode] asked for the state LHBM is in does
    nothing; asked for the other state it records it, touches neither the
    revision nor the brightness, and sends one batch that ends with its
    only flush -- the batch for on ends with LHBM on (0x85), the batch for
    off starts with LHBM off (0x86).  Asking twice for the same state sends
    nothing the second time, and switching on and off again restores the
    context. *)
Theorem set_local_hbm_mode_toggle
    (PANEL_REV_EVT1 : Z) (ctx : exynos_panel_hbm) (en : bool) :
  let ctx' := fst (nt37290_set_local_hbm_mode PANEL_REV_EVT1 ctx en) in
  let cmds := snd (nt37290_set_local_hbm_mode PANEL_REV_EVT1 ctx en) in
  local_hbm_enabled ctx' = en
  /\ panel_rev ctx' = panel_rev ctx
  /\ bl_brightness ctx' = bl_brightness ctx
  /\ (local_hbm_enabled ctx = en -> ctx' = ctx /\ cmds = [])
  /\ (local_hbm_enabled ctx <> en ->
      exists queued last,
        cmds = queued ++ [DCS_BUF_ADD_AND_FLUSH last]
        /\ existsb is_flush queued = false
        /\ existsb is_dcs_write queued = false
        /\ (en = true -> last = [0x85])
        /\ (en = false -> exists rest, queued = DCS_BUF_ADD [0x86] :: rest))
  /\ nt37290_set_local_hbm_mode PANEL_REV_EVT1 ctx' en = (ctx', [])
  /\ fst (nt37290_set_local_hbm_mode PANEL_REV_EVT1 ctx' (local_hbm_enabled ctx)) = ctx.
Proof.
  cbv zeta. unfold nt37290_set_local_hbm_mode.
  destruct ctx as [rev enabled br]. cbn [local_hbm_enabled].
  destruct enabled, en; cbn [Bool.eqb fst snd set_local_hbm_enabled local_hbm_enabled
                             panel_rev bl_brightness];
    (split; [reflexivity|]); (split; [reflexivity|]); (split; [reflexivity|]);
    (split; [try (intros _; split; reflexivity); discriminate|]);
    (split; [try (intros H; now contradiction H)|split; reflexivity]).
  - intros _.
    destruct (rev >=? PANEL_REV_EVT1).
    + exists [DCS_BUF_ADD [0x86]; DCS_BUF_ADD [0x87; 0x00]], [0x2F; 0x00].
      repeat split; try discriminate. intros _. eexists. reflexivity.
    + exists [DCS_BUF_ADD [0x86]], [0x87; 0x20].
      repeat split; try discriminate. intros _. eexists. reflexivity.
  - intros _.
    destruct (rev >=? PANEL_REV_EVT1).
    + exists (lhbm_dbv_cmds (u16_of_int (br * 4))
              ++ [DCS_BUF_ADD [0x2F; 0x02]; DCS_BUF_ADD [0x87; 0x01]]), [0x85].
      split; [now rewrite <- app_assoc|].
      repeat split; discriminate.
    + exists [DCS_BUF_ADD [0x87; 0x21]], [0x85].
      repeat split; discriminate.
Qed.

Lemma set_local_hbm_mode_toggle_witness :
  nt37290_set_local_hbm_mode 16 (mk_panel_hbm 32 false 1023) false
  = (mk_panel_hbm 32 false 1023, [])
  /\ exists queued,
       snd (nt37290_set_local_hbm_mode 16 (mk_panel_hbm 32 false 1023) true)
       = queued ++ [DCS_BUF_ADD_AND_FLUSH [0x85]]
       /\ existsb is_flush queued = false.
Proof.
  split.
  - destruct (set_local_hbm_mode_toggle 16 (mk_panel_hbm 32 false 1023) false)
      as (_ & _ & _ & Hsame & _).
    destruct (Hsame eq_refl) as [Hctx Hcmds].
    rewrite (surjective_pairing (nt37290_set_local_hbm_mode 16 _ false)).
    now rewrite Hctx, Hcmds.
  - destruct (set_local_hbm_mode_toggle 16 (mk_panel_hbm 32 false 1023) true)
      as (_ & _ & _ & _ & Hother & _).
    destruct Hother as (queued & last & Hcmds & Hflush & _ & Hlast & _);
      [discriminate|].
    rewrite (Hlast eq_refl) in Hcmds.
    exists queued. split; assumption.
Defined.

(** X14: when LHBM is switched on at revision EVT1 or later, the batch
    carries the DBV command 0xDF with a level three times, high byte
    first; the two bytes are bytes and make up four times the backlight
    brightness modulo 65536, that is exactly four times the brightness up
    to 16383. *)
Theorem set_local_hbm_mode_dbv_level
    (PANEL_REV_EVT1 : Z) (ctx : exynos_panel_hbm) :
  PANEL_REV_EVT1 <= panel_rev ctx ->
  local_hbm_enabled ctx = false ->
  exists val1 val2,
    In (DCS_BUF_ADD [0xDF; val1; val2; val1; val2; val1; val2])
       (snd (nt37290_set_local_hbm_mode PANEL_REV_EVT1 ctx true))
    /\ 0 <= val1 <= 255 /\ 0 <= val2 <= 255
    /\ val1 * 256 + val2 = (bl_brightness ctx * 4) mod 65536
    /\ (0 <= bl_brightness ctx <= 16383 -> val1 * 256 + val2 = 4 * bl_brightness ctx).
Proof.
  intros Hrev Hoff.
  unfold nt37290_set_local_hbm_mode. rewrite Hoff.
  cbn [Bool.eqb snd set_local_hbm_enabled panel_rev bl_brightness].
  destruct (Z.geb_spec (panel_rev ctx) PANEL_REV_EVT1); [|lia].
  destruct (u16_level_bytes (bl_brightness ctx * 4)) as (H1 & H2 & Hsum).
  cbv zeta in H1, H2, Hsum.
  do 2 eexists. split; [|split; [exact H1|split; [exact H2|split; [exact Hsum|]]]].
  - unfold lhbm_dbv_cmds. cbn [app In]. right. right. left. reflexivity.
  - intros Hb. rewrite Hsum. rewrite Z.mod_small; lia.
Qed.

Lemma set_local_hbm_mode_dbv_level_witness :
  exists val1 val2,
    In (DCS_BUF_ADD [0xDF; val1; val2; val1; val2; val1; val2])
       (snd (nt37290_set_local_hbm_mode 16 (mk_panel_hbm 32 false 1023) true))
    /\ val1 * 256 + val2 = 4092.
Proof.
  destruct (set_local_hbm_mode_dbv_level 16 (mk_panel_hbm 32 false 1023))
    as (val1 & val2 & Hin & _ & _ & _ & Hsum);
    [vm_compute; discriminate | reflexivity |].
  exists val1, val2. split; [exact Hin|].
  apply Hsum. vm_compute. split; discriminate.
Defined.

(** X15: [nt37290_set_brightness] returns what
    [exynos_panel_set_brightness] returns and sends what it sends; before
    that it queues, without flushing, the DBV commands for four times the
    brightness when LHBM is on at revision EVT1 or later -- the commands
    that switching LHBM on at that backlight brightness starts with -- and
    nothing otherwise. *)
Theorem set_brightness_queues_dbv
    (PANEL_REV_EVT1 : Z)
    (exynos_panel_set_brightness :
       exynos_panel_hbm -> Z -> exynos_panel_hbm * Z * list panel_event)
    (ctx : exynos_panel_hbm) (br : Z) :
  let result := nt37290_set_brightness PANEL_REV_EVT1 exynos_panel_set_brightness ctx br in
  let inner := exynos_panel_set_brightness ctx br in
  fst result = fst inner
  /\ exists queued,
       snd result = queued ++ snd inner
       /\ existsb is_flush queued = false
       /\ existsb is_dcs_write queued = false
       /\ (panel_rev ctx < PANEL_REV_EVT1 \/ local_hbm_enabled ctx = false ->
           queued = [])
       /\ (PANEL_REV_EVT1 <= panel_rev ctx -> local_hbm_enabled ctx = true ->
           queued
           = firstn 3
               (snd (nt37290_set_local_hbm_mode PANEL_REV_EVT1
                       (mk_panel_hbm (panel_rev ctx) false br) true))).
Proof.
  cbv zeta. unfold nt37290_set_brightness, nt37290_set_local_hbm_mode.
  destruct (exynos_panel_set_brightness ctx br) as [[ctx' ret] sent].
  cbn [fst snd Bool.eqb set_local_hbm_enabled panel_rev bl_brightness].
  split; [reflexivity|].
  eexists. split; [reflexivity|].
  destruct (Z.geb_spec (panel_rev ctx) PANEL_REV_EVT1) as [Hge | Hlt];
    destruct (local_hbm_enabled ctx); cbn [andb];
    repeat split; try reflexivity; try discriminate; try lia;
    try (intros [H | H]; [lia | discriminate]).
Qed.

Lemma set_brightness_queues_dbv_witness :
  snd (nt37290_set_brightness 16 sample_set_brightness (mk_panel_hbm 32 true 0) 1023)
  = lhbm_dbv_cmds 4092 ++ snd (sample_set_brightness (mk_panel_hbm 32 true 0) 1023).
Proof.
  destruct (set_brightness_queues_dbv 16 sample_set_brightness
              (mk_panel_hbm 32 true 0) 1023)
    as (_ & queued & Hcmds & _ & _ & _ & Hqueued).
  rewrite Hcmds, Hqueued; [reflexivity | vm_compute; discriminate | reflexivity].
Defined.

(** ** Panel revision, DSC offsets and seamless modes *)

Lemma forallb_below (P : Z -> bool) (n : nat) :
  forallb P (map Z.of_nat (seq 0 n)) = true ->
  forall z, 0 <= z < Z.of_nat n -> P z = true.
Proof.
  intros Hall z Hz.
  rewrite forallb_forall in Hall. apply Hall.
  apply in_map_iff. exists (Z.to_nat z).
  split; [lia|]. apply in_seq. lia.
Qed.

Lemma panel_build_code (id : Z) :
  u8_of_int (Z.shiftr (Z.land id 0xFF00) 8) = (id / 256) mod 256.
Proof.
  unfold u8_of_int.
  rewrite Z.shiftr_land.
  change (Z.shiftr 0xFF00 8) with (Z.ones 8).
  rewrite Z.land_ones by lia.
  rewrite Z.shiftr_div_pow2 by lia.
  change (2 ^ 8) with 256.
  apply Z.mod_mod. lia.
Qed.

(** X16: the revision code that [nt37290_get_panel_rev] hands to
    [exynos_panel_get_panel_rev] is a 5-bit number made of the second byte
    [b] of the panel id: its bits 7 to 5 above its bits 1 and 0, that is
    [4 * (b / 32) + b mod 4]; the other bytes of the id and bits 4 to 2 of
    that byte do not count. *)
Theorem get_panel_rev_code
    (exynos_panel_get_panel_rev : exynos_panel_hbm -> Z -> exynos_panel_hbm)
    (ctx : exynos_panel_hbm) (id : Z) :
  let b := (id / 256) mod 256 in
  nt37290_get_panel_rev exynos_panel_get_panel_rev ctx id
  = exynos_panel_get_panel_rev ctx (4 * (b / 32) + b mod 4)
  /\ 0 <= 4 * (b / 32) + b mod 4 < 32.
Proof.
  cbv zeta. unfold nt37290_get_panel_rev, panel_rev_code.
  rewrite panel_build_code.
  assert (Hb : 0 <= (id / 256) mod 256 < Z.of_nat 256)
    by (apply Z.mod_pos_bound; lia).
  set (b := (id / 256) mod 256) in *. clearbody b.
  pose proof (forallb_below
                (fun b => (u8_of_int (Z.lor (Z.shiftr (Z.land b 0xE0) 3) (Z.land b 0x03))
                           =? 4 * (b / 32) + b mod 4)
                          && (0 <=? 4 * (b / 32) + b mod 4)
                          && (4 * (b / 32) + b mod 4 <? 32))
                256 ltac:(vm_compute; reflexivity) b Hb) as Hcheck.
  cbv beta in Hcheck.
  apply andb_prop in Hcheck. destruct Hcheck as [Hcheck Hlt].
  apply andb_prop in Hcheck. destruct Hcheck as [Heq Hge].
  apply Z.eqb_eq in Heq. apply Z.leb_le in Hge. apply Z.ltb_lt in Hlt.
  rewrite Heq. split; [reflexivity | lia].
Qed.

(** X17: [TO_6BIT_SIGNED] keeps a value between -32 and 31 as its 6-bit
    two's complement: the result lies between 0 and 63, is the value itself
    when that is not negative and the value plus 64 when it is, so two
    values in that range with the same result are equal. *)
Theorem to_6bit_signed_range (v : Z) :
  -32 <= v <= 31 ->
  0 <= TO_6BIT_SIGNED v <= 63
  /\ TO_6BIT_SIGNED v = (if v <? 0 then v + 64 else v)
  /\ (forall w, -32 <= w <= 31 -> TO_6BIT_SIGNED w = TO_6BIT_SIGNED v -> w = v).
Proof.
  intros Hv.
  assert (Hland : forall x, -32 <= x <= 31 ->
                            TO_6BIT_SIGNED x = if x <? 0 then x + 64 else x).
  { intros x Hx. unfold TO_6BIT_SIGNED.
    change 0x3F with (Z.ones 6). rewrite Z.land_ones by lia.
    change (2 ^ 6) with 64.
    destruct (Z.ltb_spec x 0).
    - symmetry. apply Z.mod_unique with (q := -1); lia.
    - apply Z.mod_small. lia. }
  rewrite (Hland v Hv).
  split; [destruct (Z.ltb_spec v 0); lia|].
  split; [reflexivity|].
  intros w Hw. rewrite (Hland w Hw).
  destruct (Z.ltb_spec w 0), (Z.ltb_spec v 0); lia.
Qed.

(** X17 at the offsets of [nt37290_dsc_cfg]: -10 is stored as 54 and -12
    as 52. *)
Lemma to_6bit_signed_range_witness :
  TO_6BIT_SIGNED (-10) = 54 /\ TO_6BIT_SIGNED (-12) = 52.
Proof.
  split.
  - destruct (to_6bit_signed_range (-10)) as (_ & H & _);
      [split; discriminate | exact H].
  - destruct (to_6bit_signed_range (-12)) as (_ & H & _);
      [split; discriminate | exact H].
Defined.

(** X18: [nt37290_is_mode_seamless] is an equivalence on display modes
    that looks at the active resolution and the flags only: two modes that
    agree on them are seamless whatever their clocks, so the 60 Hz, the
    120 Hz and the low-power mode of the driver are seamless with one
    another. *)
Theorem is_mode_seamless_equivalence :
  (forall a, nt37290_is_mode_seamless a a = true)
  /\ (forall a b, nt37290_is_mode_seamless a b = nt37290_is_mode_seamless b a)
  /\ (forall a b c,
        nt37290_is_mode_seamless a b = true ->
        nt37290_is_mode_seamless b c = true ->
        nt37290_is_mode_seamless a c = true)
  /\ (forall a b,
        nt37290_is_mode_seamless a b = true <->
        vdisplay a = vdisplay b /\ hdisplay a = hdisplay b /\ flags a = flags b)
  /\ (forall a b,
        In a [nt37290_display_mode_60; nt37290_display_mode_120; nt37290_display_mode_lp] ->
        In b [nt37290_display_mode_60; nt37290_display_mode_120; nt37290_display_mode_lp] ->
        nt37290_is_mode_seamless a b = true).
Proof.
  assert (Hiff : forall a b,
             nt37290_is_mode_seamless a b = true <->
             vdisplay a = vdisplay b /\ hdisplay a = hdisplay b /\ flags a = flags b).
  { intros a b. unfold nt37290_is_mode_seamless.
    rewrite !andb_true_iff, !Z.eqb_eq. tauto. }
  split; [|split; [|split; [|split]]].
  - intros a. apply Hiff. auto.
  - intros a b.
    destruct (nt37290_is_mode_seamless a b) eqn:Hab,
             (nt37290_is_mode_seamless b a) eqn:Hba; try reflexivity.
    + apply Hiff in Hab. rewrite <- Hba. symmetry. apply Hiff. intuition.
    + apply Hiff in Hba. rewrite <- Hab. apply Hiff. intuition.
  - intros a b c Hab Hbc. apply Hiff in Hab, Hbc. apply Hiff.
    intuition congruence.
  - exact Hiff.
  - intros a b Ha Hb. cbn [In] in Ha, Hb.
    destruct Ha as [<- | [<- | [<- | []]]], Hb as [<- | [<- | [<- | []]]];
      reflexivity.
Qed.

(** ** Power on *)

(** [nt37290_enable] on a panel with a current mode. *)
Lemma enable_run
    (exynos_panel_reset : exynos_panel -> exynos_panel * list panel_event)
    (exynos_panel_send_cmd_set :
       exynos_panel -> nt37290_cmd_set -> exynos_panel * list panel_event)
    (exynos_panel_set_lp_mode :
       exynos_panel -> exynos_panel_mode -> exynos_panel * list panel_event)
    (s : nt37290_panel) (pmode : exynos_panel_mode) :
  current_mode (base s) = Some pmode ->
  exists s' pre post,
    nt37290_enable exynos_panel_reset exynos_panel_send_cmd_set
      exynos_panel_set_lp_mode s
    = Some (s', 0,
            pre
            ++ panel_feat_cmds (drm_mode_vrefresh pmode)
                 (int_of_u32 (auto_mode_vrefresh s))
                 (test_bit G10_FEAT_EARLY_EXIT (feat s))
                 (test_bit G10_FEAT_FRAME_AUTO (feat s))
            ++ post)
    /\ feat s' = feat s
    /\ hw_feat s' = feat s
    /\ hw_vrefresh s' = drm_mode_vrefresh pmode
    /\ hw_idle_vrefresh s' = int_of_u32 (auto_mode_vrefresh s)
    /\ (is_lp_mode pmode = false -> post = [DCS_WRITE display_on 0]).
Proof.
  unfold nt37290_enable. intros ->.
  destruct (exynos_panel_reset (base s)) as [ctx1 reset].
  destruct (exynos_panel_send_cmd_set ctx1 nt37290_init_cmd_set) as [ctx2 init].
  destruct (exynos_panel_send_cmd_set ctx2 nt37290_lhbm_on_setting_cmd_set)
    as [ctx3 lhbm].
  rewrite (update_panel_feat_run (set_base ctx3 s) (Some pmode) true
             (drm_mode_vrefresh pmode) eq_refl).
  cbv zeta. cbn [panel_feat_changed].
  fields.
  destruct (is_lp_mode pmode); cbn [negb].
  - destruct (exynos_panel_set_lp_mode _ pmode) as [ctx4 lp].
    exists (mk_nt37290_panel ctx4 (feat s) (feat s) (drm_mode_vrefresh pmode)
              (int_of_u32 (auto_mode_vrefresh s)) (auto_mode_vrefresh s)
              (delayed_idle s)),
           (reset ++ init ++ lhbm), lp.
    split; [now rewrite <- !app_assoc|].
    repeat split. discriminate.
  - eexists _, (reset ++ init ++ lhbm), _.
    split; [now rewrite <- !app_assoc|].
    repeat split.
Qed.

(** X19: [nt37290_enable] without a current mode fails with -EINVAL,
    sends nothing and changes nothing.  With a current mode it returns 0
    and its trace is, in this order: what the reset sends, what the init
    command set sends, what the LHBM command set sends (each collaborator
    working on the context the one before left), then always the
    panel-feature batch, which starts with 0x2F 0x00 and holds a flush, and
    last display on outside a low-power mode, or what
    [exynos_panel_set_lp_mode] sends in one.  Afterwards the committed
    features are the desired ones, the committed rate is the rate of the
    current mode and the committed idle rate is the resolved one. *)
Theorem enable_commits_desired
    (exynos_panel_reset : exynos_panel -> exynos_panel * list panel_event)
    (exynos_panel_send_cmd_set :
       exynos_panel -> nt37290_cmd_set -> exynos_panel * list panel_event)
    (exynos_panel_set_lp_mode :
       exynos_panel -> exynos_panel_mode -> exynos_panel * list panel_event)
    (s : nt37290_panel) :
  let enable :=
    nt37290_enable exynos_panel_reset exynos_panel_send_cmd_set
      exynos_panel_set_lp_mode s in
  (current_mode (base s) = None -> enable = Some (s, - EINVAL, []))
  /\ (forall pmode, current_mode (base s) = Some pmode ->
      let ctx1 := fst (exynos_panel_reset (base s)) in
      let ctx2 := fst (exynos_panel_send_cmd_set ctx1 nt37290_init_cmd_set) in
      let ctx3 :=
        fst (exynos_panel_send_cmd_set ctx2 nt37290_lhbm_on_setting_cmd_set) in
      let ctx4 := set_panel_idle_vrefresh 0 ctx3 in
      exists s' batch,
        enable
        = Some (s', 0,
                snd (exynos_panel_reset (base s))
                ++ snd (exynos_panel_send_cmd_set ctx1 nt37290_init_cmd_set)
                ++ snd (exynos_panel_send_cmd_set ctx2 nt37290_lhbm_on_setting_cmd_set)
                ++ (DCS_BUF_ADD [0x2F; 0x00] :: batch)
                ++ (if is_lp_mode pmode
                    then snd (exynos_panel_set_lp_mode ctx4 pmode)
                    else [DCS_WRITE display_on 0]))
        /\ DCS_BUF_ADD [0x2F; 0x00] :: batch
           = panel_feat_cmds (drm_mode_vrefresh pmode)
               (int_of_u32 (auto_mode_vrefresh s))
               (test_bit G10_FEAT_EARLY_EXIT (feat s))
               (test_bit G10_FEAT_FRAME_AUTO (feat s))
        /\ existsb is_flush batch = true
        /\ existsb is_dcs_write batch = false
        /\ base s' = (if is_lp_mode pmode
                      then fst (exynos_panel_set_lp_mode ctx4 pmode) else ctx4)
        /\ feat s' = feat s
        /\ hw_feat s' = feat s
        /\ hw_vrefresh s' = drm_mode_vrefresh pmode
        /\ hw_idle_vrefresh s' = int_of_u32 (auto_mode_vrefresh s)).
Proof.
  cbv zeta. split.
  - intros Hnone. unfold nt37290_enable. now rewrite Hnone.
  - intros pmode Hmode. unfold nt37290_enable. rewrite Hmode.
    destruct (exynos_panel_reset (base s)) as [ctx1 reset]. cbn [fst snd].
    destruct (exynos_panel_send_cmd_set ctx1 nt37290_init_cmd_set) as [ctx2 init].
    cbn [fst snd].
    destruct (exynos_panel_send_cmd_set ctx2 nt37290_lhbm_on_setting_cmd_set)
      as [ctx3 lhbm].
    cbn [fst snd].
    rewrite (update_panel_feat_run (set_base ctx3 s) (Some pmode) true
               (drm_mode_vrefresh pmode) eq_refl).
    cbv zeta. cbn [panel_feat_changed]. cbn [fst snd].
    change (auto_mode_vrefresh (set_base ctx3 s)) with (auto_mode_vrefresh s).
    change (feat (set_base ctx3 s)) with (feat s).
    change (delayed_idle (set_base ctx3 s)) with (delayed_idle s).
    change (base (set_base ctx3 s)) with ctx3.
    pose proof (panel_feat_cmds_flushes (drm_mode_vrefresh pmode)
                  (int_of_u32 (auto_mode_vrefresh s))
                  (test_bit G10_FEAT_EARLY_EXIT (feat s))
                  (test_bit G10_FEAT_FRAME_AUTO (feat s))) as Hflush.
    pose proof (panel_feat_cmds_no_dcs_write (drm_mode_vrefresh pmode)
                  (int_of_u32 (auto_mode_vrefresh s))
                  (test_bit G10_FEAT_EARLY_EXIT (feat s))
                  (test_bit G10_FEAT_FRAME_AUTO (feat s))) as Hwrite.
    destruct (panel_feat_cmds_head (drm_mode_vrefresh pmode)
                (int_of_u32 (auto_mode_vrefresh s))
                (test_bit G10_FEAT_EARLY_EXIT (feat s))
                (test_bit G10_FEAT_FRAME_AUTO (feat s))) as [batch Hbatch].
    rewrite Hbatch in Hflush, Hwrite |- *.
    cbn [existsb is_flush is_dcs_write orb] in Hflush, Hwrite.
    destruct (is_lp_mode pmode); cbn [negb].
    + cbn [base].
      destruct (exynos_panel_set_lp_mode (set_panel_idle_vrefresh 0 ctx3) pmode)
        as [ctx5 lp].
      eexists _, batch. split; [reflexivity|].
      cbn [fst snd set_base base feat hw_feat hw_vrefresh hw_idle_vrefresh].
      repeat split; assumption.
    + eexists _, batch. split; [reflexivity|].
      cbn [base feat hw_feat hw_vrefresh hw_idle_vrefresh].
      repeat split; assumption.
Qed.

(** X19 on a panel that idles at 30 Hz in the 120 Hz mode, with sample
    collaborators that send one command each: the whole trace, in order;
    and on a panel without a current mode. *)
Lemma enable_commits_desired_witness :
  (exists s',
     nt37290_enable sample_panel_reset sample_send_cmd_set sample_set_lp_mode
       (sample_early_exit_panel 0)
     = Some (s', 0,
             [ DCS_WRITE [0x11] 120;
               DCS_WRITE [0x88; 0x01] 0;
               DCS_BUF_ADD [0x2F; 0x00];
               DCS_BUF_ADD [0x2F; 0x30];
               DCS_BUF_ADD [0x5A; 0x00];
               DCS_BUF_ADD [0xF0; 0x55; 0xAA; 0x52; 0x08; 0x00];
               DCS_BUF_ADD [0x6F; 0x1C];
               DCS_BUF_ADD [0xBA; 0x93; 0x03; 0x02; 0x00; 0x11; 0x03; 0x03; 0x00; 0x04];
               DCS_BUF_ADD [0x2C];
               DCS_BUF_ADD_AND_FLUSH [0x44; 0x00; 0x00];
               DCS_WRITE [0x29] 0 ])
     /\ hw_feat s' = 3)
  /\ nt37290_enable sample_panel_reset sample_send_cmd_set sample_set_lp_mode
       (sample_panel exynos_panel_zeroed)
     = Some (sample_panel exynos_panel_zeroed, - EINVAL, []).
Proof.
  split.
  - destruct (enable_commits_desired sample_panel_reset sample_send_cmd_set
                sample_set_lp_mode (sample_early_exit_panel 0)) as [_ Hmode].
    destruct (Hmode nt37290_mode_120 eq_refl)
      as (s' & batch & Hrun & Hbatch & _ & _ & _ & _ & Hhw & _).
    injection Hbatch as Hbatch. subst batch.
    exists s'. split; [exact Hrun | exact Hhw].
  - destruct (enable_commits_desired sample_panel_reset sample_send_cmd_set
                sample_set_lp_mode (sample_panel exynos_panel_zeroed)) as [Hnone _].
    exact (Hnone eq_refl).
Defined.

(** X20: a power cycle brings the committed state back to the desired
    one.  [nt37290_disable] clears the committed features and resets the
    committed rates; when the common context still has a current mode,
    [nt37290_enable] then returns 0 and commits the features and the idle
    rate the panel desired before power off, at the rate of that mode. *)
Theorem disable_enable_recommits
    (exynos_panel_disable : exynos_panel -> exynos_panel * Z)
    (exynos_panel_reset : exynos_panel -> exynos_panel * list panel_event)
    (exynos_panel_send_cmd_set :
       exynos_panel -> nt37290_cmd_set -> exynos_panel * list panel_event)
    (exynos_panel_set_lp_mode :
       exynos_panel -> exynos_panel_mode -> exynos_panel * list panel_event)
    (s : nt37290_panel) (pmode : exynos_panel_mode) :
  current_mode (fst (exynos_panel_disable (base s))) = Some pmode ->
  let off := fst (nt37290_disable exynos_panel_disable s) in
  (forall f, test_bit f (hw_feat off) = false)
  /\ exists on cmds,
       nt37290_enable exynos_panel_reset exynos_panel_send_cmd_set
         exynos_panel_set_lp_mode off
       = Some (on, 0, cmds)
       /\ (forall f, test_bit f (hw_feat on) = test_bit f (feat s))
       /\ feat on = feat s
       /\ hw_vrefresh on = drm_mode_vrefresh pmode
       /\ hw_idle_vrefresh on = int_of_u32 (auto_mode_vrefresh s).
Proof.
  intros Hmode. cbv zeta.
  assert (Hoff : exists ctx,
             fst (nt37290_disable exynos_panel_disable s)
             = mk_nt37290_panel ctx (feat s) (bitmap_clear (hw_feat s) 0 G10_FEAT_MAX)
                 60 0 (auto_mode_vrefresh s) (delayed_idle s)
             /\ current_mode ctx = Some pmode).
  { unfold nt37290_disable. fields.
    destruct (exynos_panel_disable (base s)) as [ctx ret].
    exists ctx. split; [reflexivity | exact Hmode]. }
  destruct Hoff as (ctx & -> & Hctx).
  split; [intros f; apply test_bit_bitmap_clear|].
  destruct (enable_run exynos_panel_reset exynos_panel_send_cmd_set
              exynos_panel_set_lp_mode
              (mk_nt37290_panel ctx (feat s) (bitmap_clear (hw_feat s) 0 G10_FEAT_MAX)
                 60 0 (auto_mode_vrefresh s) (delayed_idle s)) pmode Hctx)
    as (on & pre & post & Hrun & Hfeat & Hhw & Hv & Hi & _).
  eexists on, _. split; [exact Hrun|].
  cbn [feat auto_mode_vrefresh] in Hfeat, Hhw, Hi.
  split; [intros f; now rewrite Hhw|]. auto.
Qed.

(** X20 after idling was turned on: power off clears the committed
    features, power on commits both again. *)
Lemma disable_enable_recommits_witness :
  exists on cmds,
    nt37290_enable sample_panel_reset sample_send_cmd_set sample_set_lp_mode
      (fst (nt37290_disable sample_panel_disable (sample_early_exit_panel 0)))
    = Some (on, 0, cmds)
    /\ test_bit G10_FEAT_FRAME_AUTO (hw_feat on) = true
    /\ hw_idle_vrefresh on = 30.
Proof.
  destruct (disable_enable_recommits sample_panel_disable sample_panel_reset
              sample_send_cmd_set sample_set_lp_mode
              (sample_early_exit_panel 0) nt37290_mode_120 eq_refl)
    as (_ & on & cmds & Hrun & Hhw & _ & _ & Hi).
  exists on, cmds. split; [exact Hrun|].
  split; [rewrite Hhw; reflexivity | exact Hi].
Defined.

(** ** The TE2 batch *)

Lemma land_byte (x : Z) : is_byte (Z.land x 0xFF) = true.
Proof.
  pose proof (Z.land_ones x 8 ltac:(lia)) as E.
  change (Z.ones 8) with 0xFF in E. change (2 ^ 8) with 256 in E.
  pose proof (Z.mod_pos_bound x 256 ltac:(lia)) as H.
  unfold is_byte. rewrite E.
  apply andb_true_intro. split; apply Z.leb_le; lia.
Qed.

(** X21: whatever the timing source returns, every command
    [nt37290_update_te2] queues carries bytes only (the edges are cut to
    their low byte), the option byte it writes is Fixed or Changeable, and
    when it sends anything the batch ends with its only flush, the timing
    command 0xC4; with a null context it sends nothing. *)
Theorem update_te2_batch_bytes
    (exynos_panel_get_current_mode_te2 : exynos_panel -> Z * exynos_panel_te2_timing)
    (ctx : option nt37290_panel) :
  let cmds := nt37290_update_te2 exynos_panel_get_current_mode_te2 ctx in
  forallb (fun e => forallb is_byte (event_payload e)) cmds = true
  /\ (ctx = None -> cmds = [])
  /\ (existsb is_dcs_event cmds = true ->
      exists queued rising falling,
        cmds = queued ++ [DCS_BUF_ADD_AND_FLUSH
                            [0xC4; 0x00; 0x00; 0x00; 0x00; 0x00; rising; 0x10; falling]]
        /\ existsb is_flush queued = false
        /\ filter (writes_register 0xC3) queued
           = [ DCS_BUF_ADD [0xC3; nt37290_get_te2_option ctx];
               DCS_BUF_ADD [0xC3; nt37290_get_te2_option ctx] ]).
Proof.
  cbv zeta. unfold nt37290_update_te2.
  destruct ctx as [s|]; [|repeat split; discriminate].
  destruct (exynos_panel_get_current_mode_te2 (base s)) as [ret timing].
  assert (Hopt : is_byte (nt37290_get_te2_option (Some s)) = true).
  { destruct (get_te2_option_values (Some s)) as [-> | ->]; reflexivity. }
  assert (Hreg : writes_register 0xC3 (DCS_BUF_ADD [0xC3; nt37290_get_te2_option (Some s)])
                 = true) by reflexivity.
  destruct (ret =? 0); [|destruct (ret =? - EAGAIN)].
  - split; [|split; [discriminate|]].
    + unfold te2_cmds. cbn [forallb event_payload].
      rewrite !Hopt, !land_byte. reflexivity.
    + intros _. unfold te2_cmds.
      eexists [_; _; _; _], _, _. split; [reflexivity|]. split; reflexivity.
  - split; [|split; [discriminate|]].
    + unfold te2_cmds. cbn [forallb event_payload].
      rewrite !Hopt. reflexivity.
    + intros _. unfold te2_cmds.
      eexists [_; _; _; _], _, _. split; [reflexivity|]. split; reflexivity.
  - split; [reflexivity|]. split; discriminate.
Qed.

Lemma update_te2_batch_bytes_witness :
  exists queued rising falling,
    nt37290_update_te2 (sample_te2_source 0)
      (Some (sample_panel (sample_ctx nt37290_mode_120 0 0)))
    = queued ++ [DCS_BUF_ADD_AND_FLUSH
                   [0xC4; 0x00; 0x00; 0x00; 0x00; 0x00; rising; 0x10; falling]]
    /\ existsb is_flush queued = false.
Proof.
  destruct (update_te2_batch_bytes (sample_te2_source 0)
              (Some (sample_panel (sample_ctx nt37290_mode_120 0 0))))
    as (_ & _ & Hsent).
  destruct (Hsent eq_refl) as (queued & rising & falling & Hcmds & Hflush & _).
  exists queued, rising, falling. split; assumption.
Defined.

(** ** Self refresh, leaving AOD and the mode-set stamp *)

Lemma test_bit_differs_not_empty (a b : bitmap) (f : nt37290_panel_feature) :
  test_bit f a <> test_bit f b ->
  bitmap_empty (bitmap_xor a b G10_FEAT_MAX) G10_FEAT_MAX = false.
Proof.
  intros Hdiff.
  destruct (bitmap_empty (bitmap_xor a b G10_FEAT_MAX) G10_FEAT_MAX) eqn:Hempty;
    [|reflexivity].
  exfalso. apply Hdiff. now apply bitmap_empty_xor_test_bit.
Qed.

(** X22: in a current mode that is not a low-power mode and idles on self
    refresh, [nt37290_set_self_refresh] during self refresh sets both
    features exactly when an idle rate is resolved; when the caller then
    clears the self-refresh flag and calls it again, both features are
    cleared and the reported idle rate is 0, and if the panel was idling
    this second call sends a batch. *)
Theorem set_self_refresh_enter_exit
    (d1 d2 : Z) (s : nt37290_panel) (pmode : exynos_panel_mode) (enable1 enable2 : bool) :
  current_mode (base s) = Some pmode ->
  is_lp_mode pmode = false ->
  idle_mode pmode = IDLE_MODE_ON_SELF_REFRESH ->
  self_refresh_active (base s) = true ->
  exists updated1 s1 cmds1 updated2 s2 cmds2,
    nt37290_set_self_refresh d1 s enable1 = Some (updated1, s1, cmds1)
    /\ test_bit G10_FEAT_EARLY_EXIT (feat s1) = negb (auto_mode_vrefresh s1 =? 0)
    /\ test_bit G10_FEAT_FRAME_AUTO (feat s1) = negb (auto_mode_vrefresh s1 =? 0)
    /\ panel_idle_vrefresh (base s1) = auto_mode_vrefresh s1
    /\ nt37290_set_self_refresh d2 (set_self_refresh_active false s1) enable2
       = Some (updated2, s2, cmds2)
    /\ test_bit G10_FEAT_EARLY_EXIT (feat s2) = false
    /\ test_bit G10_FEAT_FRAME_AUTO (feat s2) = false
    /\ panel_idle_vrefresh (base s2) = 0
    /\ (auto_mode_vrefresh s1 <> 0 -> updated2 = true).
Proof.
  intros Hcur Hlp Hmode Hsr.
  unfold nt37290_set_self_refresh at 1. rewrite Hcur, Hlp.
  rewrite (change_frequency_run d1 s pmode pmode Hcur). cbv zeta.
  set (s0 := nt37290_update_min_idle_vrefresh d1 s pmode).
  assert (Hactive : idle_active s0 pmode = negb (auto_mode_vrefresh s0 =? 0)).
  { unfold idle_active, s0.
    destruct (update_min_idle_vrefresh_frame d1 s pmode) as [-> _].
    rewrite Hmode, Hsr. cbn [idle_mode_eqb orb andb]. apply andb_true_r. }
  rewrite Hactive, Hsr.
  set (f := coupled_feat (negb (auto_mode_vrefresh s0 =? 0)) (feat s)).
  set (hf := if panel_feat_changed _ _ _ _ then f else hw_feat s).
  match goal with
  | |- context [Some (?u, ?st, ?c) = _] =>
      set (s1 := st); set (u1 := u); set (c1 := c)
  end.
  assert (Hhf : forall g, test_bit g hf = test_bit g f).
  { intros g. unfold hf.
    destruct (panel_feat_changed _ _ _ _) eqn:Hchanged; [reflexivity|].
    apply panel_feat_unchanged_inv in Hchanged.
    destruct Hchanged as (_ & Hempty & _).
    destruct (update_min_idle_vrefresh_frame d1 s pmode) as (_ & _ & Hhf & _).
    fold s0 in Hhf. fields_in Hempty. rewrite Hhf in Hempty.
    symmetry. now apply bitmap_empty_xor_test_bit. }
  assert (Hcur2 : current_mode (base (set_self_refresh_active false s1)) = Some pmode)
    by exact Hcur.
  assert (Hsecond : exists updated2 s2 cmds2,
             nt37290_set_self_refresh d2 (set_self_refresh_active false s1) enable2
             = Some (updated2, s2, cmds2)
             /\ test_bit G10_FEAT_EARLY_EXIT (feat s2) = false
             /\ test_bit G10_FEAT_FRAME_AUTO (feat s2) = false
             /\ panel_idle_vrefresh (base s2) = 0
             /\ (auto_mode_vrefresh s1 <> 0 -> updated2 = true)).
  { unfold nt37290_set_self_refresh. rewrite Hcur2, Hlp.
    rewrite (change_frequency_run d2 _ pmode pmode Hcur2). cbv zeta.
    set (s3 := nt37290_update_min_idle_vrefresh d2
                 (set_self_refresh_active false s1) pmode).
    assert (Hoff : idle_active s3 pmode = false).
    { unfold idle_active, s3.
      destruct (update_min_idle_vrefresh_frame d2
                  (set_self_refresh_active false s1) pmode) as [-> _].
      rewrite Hmode. cbn [idle_mode_eqb orb]. fields. now rewrite andb_false_r. }
    rewrite Hoff.
    do 3 eexists. split; [reflexivity|].
    cbn [feat base]. rewrite !test_bit_coupled_feat.
    split; [reflexivity|]. split; [reflexivity|]. split; [reflexivity|].
    intros Hidle.
    unfold panel_feat_changed. rewrite Hlp.
    destruct (update_min_idle_vrefresh_frame d2
                (set_self_refresh_active false s1) pmode) as (_ & _ & Hhf3 & _).
    fold s3 in Hhf3. fields. rewrite Hhf3.
    change (hw_feat (set_self_refresh_active false s1)) with hf.
    change (feat s1) with f.
    rewrite (test_bit_differs_not_empty _ hf G10_FEAT_EARLY_EXIT); [reflexivity|].
    rewrite Hhf. unfold f. rewrite !test_bit_coupled_feat.
    unfold s1 in Hidle. cbn [auto_mode_vrefresh] in Hidle.
    destruct (Z.eqb_spec (auto_mode_vrefresh s0) 0); [contradiction | discriminate]. }
  destruct Hsecond as (u2 & s2 & c2 & Hrun2 & Hee2 & Hfa2 & Hpiv2 & Hup2).
  exists u1, s1, c1, u2, s2, c2.
  split; [reflexivity|].
  split; [unfold s1; cbn [feat auto_mode_vrefresh]; apply test_bit_coupled_feat|].
  split; [unfold s1; cbn [feat auto_mode_vrefresh]; apply test_bit_coupled_feat|].
  split; [reflexivity|].
  auto.
Qed.

Lemma set_self_refresh_enter_exit_witness :
  exists updated1 s1 cmds1 s2 cmds2,
    nt37290_set_self_refresh 0 (sample_panel (sample_ctx nt37290_mode_120 30 0)) true
    = Some (updated1, s1, cmds1)
    /\ test_bit G10_FEAT_EARLY_EXIT (feat s1) = true
    /\ nt37290_set_self_refresh 0 (set_self_refresh_active false s1) false
       = Some (true, s2, cmds2)
    /\ test_bit G10_FEAT_EARLY_EXIT (feat s2) = false.
Proof.
  destruct (set_self_refresh_enter_exit 0 0
              (sample_panel (sample_ctx nt37290_mode_120 30 0)) nt37290_mode_120
              true false eq_refl eq_refl eq_refl eq_refl)
    as (u1 & s1 & c1 & u2 & s2 & c2 & Hrun1 & Hee1 & _ & _ & Hrun2 & Hee2 & _ & _ & Hup).
  assert (Hauto : auto_mode_vrefresh s1 = 30).
  { pose proof Hrun1 as Hrun1'. vm_compute in Hrun1'.
    injection Hrun1' as _ <- _. reflexivity. }
  rewrite Hauto in Hee1, Hup.
  rewrite (Hup ltac:(discriminate)) in Hrun2.
  exists u1, s1, c1, s2, c2. auto.
Defined.



(** X24: on a panel with a current mode [nt37290_trigger_early_exit]
    returns; it never changes the time of the last commit, and it sets the
    time of the last mode set to its second clock reading exactly when at
    least 17000 microseconds have passed since the last commit, on the
    single-command path and on the frequency-change path alike. *)
Theorem trigger_early_exit_stamps_mode_set
    (now now_mode_set d : Z) (s : nt37290_panel) (pmode : exynos_panel_mode) :
  current_mode (base s) = Some pmode ->
  exists s' cmds,
    nt37290_trigger_early_exit now now_mode_set d s = Some (s', cmds)
    /\ last_commit_ts (base s') = last_commit_ts (base s)
    /\ last_mode_set_ts (base s')
       = (if ktime_to_us (ktime_sub now (last_commit_ts (base s)))
             <? EARLY_EXIT_THRESHOLD_US
          then last_mode_set_ts (base s) else now_mode_set)
    /\ current_mode (base s') = Some pmode.
Proof.
  intros Hcur.
  unfold nt37290_trigger_early_exit.
  destruct (_ <? EARLY_EXIT_THRESHOLD_US).
  - do 2 eexists. split; [reflexivity|]. auto.
  - set (stamped := set_base (set_last_mode_set_ts now_mode_set (base s)) s).
    change (current_mode (base stamped)) with (current_mode (base s)).
    rewrite Hcur.
    destruct (_ && _).
    + rewrite (change_frequency_run d stamped pmode pmode Hcur). cbv zeta.
      do 2 eexists. split; [reflexivity|].
      fields. auto.
    + do 2 eexists. split; [reflexivity|]. fields. auto.
Qed.

Lemma trigger_early_exit_stamps_mode_set_witness :
  exists s' cmds,
    nt37290_trigger_early_exit 50001000 50001001 0 (sample_early_exit_panel 50)
    = Some (s', cmds)
    /\ last_mode_set_ts (base s') = 50001001
    /\ last_commit_ts (base s') = 0.
Proof.
  destruct (trigger_early_exit_stamps_mode_set 50001000 50001001 0
              (sample_early_exit_panel 50) nt37290_mode_120 eq_refl)
    as (s' & cmds & Hrun & Hcommit & Hstamp & _).
  exists s', cmds. split; [exact Hrun|]. split; [exact Hstamp | exact Hcommit].
Defined.
